(** * Shapy frontend: connection manager, message dispatcher and state store

    A shallow embedding of the client-side transport and state layer of the
    Shapy Angular frontend:

    - [core/models] (chat.models.ts, websocket.models.ts and the session
      models): the typed payloads and the chat records;
    - [SessionStore] (session.store.ts): the signal-based state container;
    - [WebSocketService] (websocket.service.ts): connect / disconnect, the
      send methods, the inbound dispatcher, the reconnection policy and the
      keepalive timer.

    The store's signals and the service's private fields are records; every
    method is a state transformer over one [World] (store, service, browser)
    written in a small state monad, so that a method body reads like its
    TypeScript source.  What the code hands to its surroundings (frames given
    to the socket, sockets opened and completed, timers armed, HTTP requests,
    broadcasts) is appended to an effect trace kept in the browser part.

    Conventions.
    - A JavaScript [number] that this layer counts or compares with (attempt
      counter, delays, context version, step index, priorities) is an integer
      far inside the exactly representable range and is a [Z]; a number that
      is only carried (scores, results, coordinates) is a [Q].
    - A JavaScript string is a [string]; only concatenation and equality are
      used on it.
    - An optional property ([p?: T]) and [T | null] are [option T].
    - [crypto.randomUUID()] and [new Date()] read two oracles of the browser,
      each with its own cursor; no assumption is made on what they return. *)

From Stdlib Require Import ZArith QArith Lia.
From stdpp Require Import base list strings.

Open Scope Z_scope.

(** ** core/models *)

(** [unknown]-typed JSON data, as produced by [JSON.parse]. *)
#[local] Unset Elimination Schemes.
Inductive JsValue : Type :=
| JsNull
| JsBool (b : bool)
| JsNumber (q : Q)
| JsString (s : string)
| JsArray (items : list JsValue)
| JsObject (props : list (string * JsValue)).
#[local] Set Elimination Schemes.

(** A [Date] is either read from the clock ([new Date()]) or built from a
    wire string ([new Date(s)]); the layer never inspects it. *)
Inductive JsDate : Type :=
| DateOfClock (ms : Z)
| DateOfString (s : string).

Inductive Role : Type := user | assistant.

Inductive Confidence : Type := high | medium | low.

Inductive StepStatus : Type := processing | completed | skipped.

Inductive ConnectionStatus : Type :=
| disconnected | connecting | connected | error.

#[global] Instance Role_eq_dec : EqDecision Role.
Proof. solve_decision. Defined.

#[global] Instance StepStatus_eq_dec : EqDecision StepStatus.
Proof. solve_decision. Defined.

#[global] Instance ConnectionStatus_eq_dec : EqDecision ConnectionStatus.
Proof. solve_decision. Defined.

(** websocket.models.ts *)

Record ConnectedPayload : Type := {
  cp_session_id : string;
  cp_has_context : bool;
  cp_context_version : Z
}.

Record ReasoningStepPayload : Type := {
  step_index : Z;
  rsp_node : string;
  rsp_status : StepStatus;
  rsp_message : string;
  rsp_timestamp : string
}.

Record TokenPayload : Type := {
  chunk : string;
  tp_node : string;
  token_index : Z
}.

Record TokensPayload : Type := {
  chunks : list string;
  tsp_node : string
}.

Record ClarificationOption : Type := {
  co_label : string;
  co_value : string;
  co_description : option string
}.

Record ClarificationRequestPayload : Type := {
  crp_id : string;
  question : string;
  why_needed : string;
  field_name : string;
  options : option (list ClarificationOption);
  priority : Z;
  affects_rules : list string
}.

Record VisualizationHint : Type := {
  highlight_layers : list string;
  highlight_color : string
}.

Record CalculationPayload : Type := {
  calculation_type : string;
  result : Q;
  unit_ : string;
  limit : option Q;
  compliant : option bool;
  margin : option Q;
  description : string;
  visualization_hint : option VisualizationHint
}.

Record InferredData : Type := {
  principal_elevation : option string;
  rear_wall_identified : bool;
  house_type_detected : option string
}.

Record ContextUpdatedPayload : Type := {
  source : string;
  version : Z;
  changes : list string;
  inferred_data : option InferredData
}.

Record SourceCitation : Type := {
  section : string;
  page : option Z;
  relevance : Q
}.

Record Assumption : Type := {
  field : string;
  value : JsValue;
  as_confidence : Confidence
}.

Record ResponseCompletePayload : Type := {
  message_id : string;
  final_answer : string;
  rc_confidence : Confidence;
  query_type : string;
  rc_sources : list SourceCitation;
  rc_calculations : list CalculationPayload;
  rc_assumptions : list Assumption;
  suggested_followups : list string
}.

Record ErrorPayload : Type := {
  code : string;
  ep_message : string;
  recoverable : bool
}.

(** [ServerMessage] is [{type, payload}] with the payload cast by the
    dispatcher according to [type]; the embedding makes it a tagged union.
    [msg_other] stands for a frame whose [type] is none of the ten the
    dispatcher's [switch] lists. *)
Inductive ServerMessage : Type :=
| msg_connected (p : ConnectedPayload)
| msg_reasoning_step (p : ReasoningStepPayload)
| msg_token (p : TokenPayload)
| msg_tokens (p : TokensPayload)
| msg_clarification_request (p : ClarificationRequestPayload)
| msg_calculation (p : CalculationPayload)
| msg_context_updated (p : ContextUpdatedPayload)
| msg_response_complete (p : ResponseCompletePayload)
| msg_error (p : ErrorPayload)
| msg_pong
| msg_other (type : string).

(** [ClientMessage]: the four outbound envelopes with their payloads. *)
Inductive ClientMessage : Type :=
| msg_query (content : string) (include_reasoning : bool)
| msg_clarification_response (question_id value : string) (text : option string)
| msg_cancel
| msg_ping.

(** chat.models.ts *)

Record ChatMessage : Type := {
  id : string;
  role : Role;
  content : string;
  timestamp : JsDate;
  isStreaming : option bool;
  queryType : option string;
  confidence : option Confidence;
  sources : option (list SourceCitation);
  calculations : option (list CalculationPayload);
  assumptions : option (list Assumption);
  suggestedFollowups : option (list string)
}.

Record ReasoningStep : Type := {
  stepIndex : Z;
  node : string;
  status : StepStatus;
  message : string;
  rs_timestamp : JsDate
}.

Record PendingClarification : Type := {
  request : ClarificationRequestPayload;
  receivedAt : JsDate
}.

(** Session models *)

Record BoundingBox : Type := {
  min_x : Q; min_y : Q; max_x : Q; max_y : Q
}.

Record ContextMetadata : Type := {
  uploaded_at : string;
  cm_object_count : Z;
  coordinate_unit : string;
  context_version : Z;
  layers_present : list string;
  layer_counts : list (string * Z);
  has_plot_boundary : bool;
  plot_boundary_closed : bool;
  bounding_box : option BoundingBox
}.

Record SessionListItem : Type := {
  session_id : string;
  created_at : string;
  updated_at : option string;
  has_context : bool;
  object_count : Z
}.

Inductive DrawingObject : Type :=
| LINE (layer : string) (start end_ : Q * Q)
| POLYLINE (layer : string) (points : list (Q * Q)) (closed : option bool).

(** ** State

    [Signals.t] holds the store's signals with the initial values of
    session.store.ts.  [mutations] is a ghost counter: the number of signal
    writes ([set] or [update] calls) performed so far. *)

Module Signals.

Record t : Type := mkSignals {
  currentSessionId : option string;
  sessions : list SessionListItem;
  wsStatus : ConnectionStatus;
  wsError : option string;
  drawingObjects : list DrawingObject;
  contextMetadata : option ContextMetadata;
  contextVersion : Z;
  messages : list ChatMessage;
  reasoningSteps : list ReasoningStep;
  isAgentThinking : bool;
  streamingContent : string;
  pendingClarification : option PendingClarification;
  isAuthenticated : bool;
  currentUserId : option string;
  currentUserEmail : option string;
  mutations : nat
}.

Definition set_currentSessionId (v : option string) (s : t) : t :=
  {| currentSessionId := v; sessions := sessions s; wsStatus := wsStatus s;
     wsError := wsError s; drawingObjects := drawingObjects s;
     contextMetadata := contextMetadata s;
     contextVersion := contextVersion s; messages := messages s;
     reasoningSteps := reasoningSteps s;
     isAgentThinking := isAgentThinking s;
     streamingContent := streamingContent s;
     pendingClarification := pendingClarification s;
     isAuthenticated := isAuthenticated s; currentUserId := currentUserId s;
     currentUserEmail := currentUserEmail s; mutations := mutations s |}.

Definition set_sessions (v : list SessionListItem) (s : t) : t :=
  {| currentSessionId := currentSessionId s; sessions := v;
     wsStatus := wsStatus s; wsError := wsError s;
     drawingObjects := drawingObjects s;
     contextMetadata := contextMetadata s;
     contextVersion := contextVersion s; messages := messages s;
     reasoningSteps := reasoningSteps s;
     isAgentThinking := isAgentThinking s;
     streamingContent := streamingContent s;
     pendingClarification := pendingClarification s;
     isAuthenticated := isAuthenticated s; currentUserId := currentUserId s;
     currentUserEmail := currentUserEmail s; mutations := mutations s |}.

Definition set_wsStatus (v : ConnectionStatus) (s : t) : t :=
  {| currentSessionId := currentSessionId s; sessions := sessions s;
     wsStatus := v; wsError := wsError s; drawingObjects := drawingObjects s;
     contextMetadata := contextMetadata s;
     contextVersion := contextVersion s; messages := messages s;
     reasoningSteps := reasoningSteps s;
     isAgentThinking := isAgentThinking s;
     streamingContent := streamingContent s;
     pendingClarification := pendingClarification s;
     isAuthenticated := isAuthenticated s; currentUserId := currentUserId s;
     currentUserEmail := currentUserEmail s; mutations := mutations s |}.

Definition set_wsError (v : option string) (s : t) : t :=
  {| currentSessionId := currentSessionId s; sessions := sessions s;
     wsStatus := wsStatus s; wsError := v;
     drawingObjects := drawingObjects s;
     contextMetadata := contextMetadata s;
     contextVersion := contextVersion s; messages := messages s;
     reasoningSteps := reasoningSteps s;
     isAgentThinking := isAgentThinking s;
     streamingContent := streamingContent s;
     pendingClarification := pendingClarification s;
     isAuthenticated := isAuthenticated s; currentUserId := currentUserId s;
     currentUserEmail := currentUserEmail s; mutations := mutations s |}.

Definition set_drawingObjects (v : list DrawingObject) (s : t) : t :=
  {| currentSessionId := currentSessionId s; sessions := sessions s;
     wsStatus := wsStatus s; wsError := wsError s; drawingObjects := v;
     contextMetadata := contextMetadata s;
     contextVersion := contextVersion s; messages := messages s;
     reasoningSteps := reasoningSteps s;
     isAgentThinking := isAgentThinking s;
     streamingContent := streamingContent s;
     pendingClarification := pendingClarification s;
     isAuthenticated := isAuthenticated s; currentUserId := currentUserId s;
     currentUserEmail := currentUserEmail s; mutations := mutations s |}.

Definition set_contextMetadata (v : option ContextMetadata) (s : t) : t :=
  {| currentSessionId := currentSessionId s; sessions := sessions s;
     wsStatus := wsStatus s; wsError := wsError s;
     drawingObjects := drawingObjects s; contextMetadata := v;
     contextVersion := contextVersion s; messages := messages s;
     reasoningSteps := reasoningSteps s;
     isAgentThinking := isAgentThinking s;
     streamingContent := streamingContent s;
     pendingClarification := pendingClarification s;
     isAuthenticated := isAuthenticated s; currentUserId := currentUserId s;
     currentUserEmail := currentUserEmail s; mutations := mutations s |}.

Definition set_contextVersion (v : Z) (s : t) : t :=
  {| currentSessionId := currentSessionId s; sessions := sessions s;
     wsStatus := wsStatus s; wsError := wsError s;
     drawingObjects := drawingObjects s;
     contextMetadata := contextMetadata s; contextVersion := v;
     messages := messages s; reasoningSteps := reasoningSteps s;
     isAgentThinking := isAgentThinking s;
     streamingContent := streamingContent s;
     pendingClarification := pendingClarification s;
     isAuthenticated := isAuthenticated s; currentUserId := currentUserId s;
     currentUserEmail := currentUserEmail s; mutations := mutations s |}.

Definition set_messages (v : list ChatMessage) (s : t) : t :=
  {| currentSessionId := currentSessionId s; sessions := sessions s;
     wsStatus := wsStatus s; wsError := wsError s;
     drawingObjects := drawingObjects s;
     contextMetadata := contextMetadata s;
     contextVersion := contextVersion s; messages := v;
     reasoningSteps := reasoningSteps s;
     isAgentThinking := isAgentThinking s;
     streamingContent := streamingContent s;
     pendingClarification := pendingClarification s;
     isAuthenticated := isAuthenticated s; currentUserId := currentUserId s;
     currentUserEmail := currentUserEmail s; mutations := mutations s |}.

Definition set_reasoningSteps (v : list ReasoningStep) (s : t) : t :=
  {| currentSessionId := currentSessionId s; sessions := sessions s;
     wsStatus := wsStatus s; wsError := wsError s;
     drawingObjects := drawingObjects s;
     contextMetadata := contextMetadata s;
     contextVersion := contextVersion s; messages := messages s;
     reasoningSteps := v; isAgentThinking := isAgentThinking s;
     streamingContent := streamingContent s;
     pendingClarification := pendingClarification s;
     isAuthenticated := isAuthenticated s; currentUserId := currentUserId s;
     currentUserEmail := currentUserEmail s; mutations := mutations s |}.

Definition set_isAgentThinking (v : bool) (s : t) : t :=
  {| currentSessionId := currentSessionId s; sessions := sessions s;
     wsStatus := wsStatus s; wsError := wsError s;
     drawingObjects := drawingObjects s;
     contextMetadata := contextMetadata s;
     contextVersion := contextVersion s; messages := messages s;
     reasoningSteps := reasoningSteps s; isAgentThinking := v;
     streamingContent := streamingContent s;
     pendingClarification := pendingClarification s;
     isAuthenticated := isAuthenticated s; currentUserId := currentUserId s;
     currentUserEmail := currentUserEmail s; mutations := mutations s |}.

Definition set_streamingContent (v : string) (s : t) : t :=
  {| currentSessionId := currentSessionId s; sessions := sessions s;
     wsStatus := wsStatus s; wsError := wsError s;
     drawingObjects := drawingObjects s;
     contextMetadata := contextMetadata s;
     contextVersion := contextVersion s; messages := messages s;
     reasoningSteps := reasoningSteps s;
     isAgentThinking := isAgentThinking s; streamingContent := v;
     pendingClarification := pendingClarification s;
     isAuthenticated := isAuthenticated s; currentUserId := currentUserId s;
     currentUserEmail := currentUserEmail s; mutations := mutations s |}.

Definition set_pendingClarification (v : option PendingClarification) (s : t) : t :=
  {| currentSessionId := currentSessionId s; sessions := sessions s;
     wsStatus := wsStatus s; wsError := wsError s;
     drawingObjects := drawingObjects s;
     contextMetadata := contextMetadata s;
     contextVersion := contextVersion s; messages := messages s;
     reasoningSteps := reasoningSteps s;
     isAgentThinking := isAgentThinking s;
     streamingContent := streamingContent s; pendingClarification := v;
     isAuthenticated := isAuthenticated s; currentUserId := currentUserId s;
     currentUserEmail := currentUserEmail s; mutations := mutations s |}.

Definition set_isAuthenticated (v : bool) (s : t) : t :=
  {| currentSessionId := currentSessionId s; sessions := sessions s;
     wsStatus := wsStatus s; wsError := wsError s;
     drawingObjects := drawingObjects s;
     contextMetadata := contextMetadata s;
     contextVersion := contextVersion s; messages := messages s;
     reasoningSteps := reasoningSteps s;
     isAgentThinking := isAgentThinking s;
     streamingContent := streamingContent s;
     pendingClarification := pendingClarification s; isAuthenticated := v;
     currentUserId := currentUserId s;
     currentUserEmail := currentUserEmail s; mutations := mutations s |}.

Definition set_currentUserId (v : option string) (s : t) : t :=
  {| currentSessionId := currentSessionId s; sessions := sessions s;
     wsStatus := wsStatus s; wsError := wsError s;
     drawingObjects := drawingObjects s;
     contextMetadata := contextMetadata s;
     contextVersion := contextVersion s; messages := messages s;
     reasoningSteps := reasoningSteps s;
     isAgentThinking := isAgentThinking s;
     streamingContent := streamingContent s;
     pendingClarification := pendingClarification s;
     isAuthenticated := isAuthenticated s; currentUserId := v;
     currentUserEmail := currentUserEmail s; mutations := mutations s |}.

Definition set_currentUserEmail (v : option string) (s : t) : t :=
  {| currentSessionId := currentSessionId s; sessions := sessions s;
     wsStatus := wsStatus s; wsError := wsError s;
     drawingObjects := drawingObjects s;
     contextMetadata := contextMetadata s;
     contextVersion := contextVersion s; messages := messages s;
     reasoningSteps := reasoningSteps s;
     isAgentThinking := isAgentThinking s;
     streamingContent := streamingContent s;
     pendingClarification := pendingClarification s;
     isAuthenticated := isAuthenticated s; currentUserId := currentUserId s;
     currentUserEmail := v; mutations := mutations s |}.

Definition set_mutations (v : nat) (s : t) : t :=
  {| currentSessionId := currentSessionId s; sessions := sessions s;
     wsStatus := wsStatus s; wsError := wsError s;
     drawingObjects := drawingObjects s;
     contextMetadata := contextMetadata s;
     contextVersion := contextVersion s; messages := messages s;
     reasoningSteps := reasoningSteps s;
     isAgentThinking := isAgentThinking s;
     streamingContent := streamingContent s;
     pendingClarification := pendingClarification s;
     isAuthenticated := isAuthenticated s; currentUserId := currentUserId s;
     currentUserEmail := currentUserEmail s; mutations := v |}.

End Signals.

(** The socket handle: [webSocket({url, ...})] is determined by the two
    arguments [buildWsUrl] derives the URL from. *)
Record Socket : Type := {
  sock_sessionId : string;
  sock_token : string
}.

(** [Fields.t] holds the private fields of [WebSocketService] ([socket] is
    [socket$]); [maxReconnectAttempts] is the read-only field. *)

Module Fields.

Record t : Type := mkFields {
  socket : option Socket;
  reconnectAttempts : Z;
  pingInterval : option nat;
  currentSessionId : option string;
  currentMessageId : option string
}.

Definition set_socket (v : option Socket) (s : t) : t :=
  {| socket := v; reconnectAttempts := reconnectAttempts s;
     pingInterval := pingInterval s; currentSessionId := currentSessionId s;
     currentMessageId := currentMessageId s |}.

Definition set_reconnectAttempts (v : Z) (s : t) : t :=
  {| socket := socket s; reconnectAttempts := v;
     pingInterval := pingInterval s; currentSessionId := currentSessionId s;
     currentMessageId := currentMessageId s |}.

Definition set_pingInterval (v : option nat) (s : t) : t :=
  {| socket := socket s; reconnectAttempts := reconnectAttempts s;
     pingInterval := v; currentSessionId := currentSessionId s;
     currentMessageId := currentMessageId s |}.

Definition set_currentSessionId (v : option string) (s : t) : t :=
  {| socket := socket s; reconnectAttempts := reconnectAttempts s;
     pingInterval := pingInterval s; currentSessionId := v;
     currentMessageId := currentMessageId s |}.

Definition set_currentMessageId (v : option string) (s : t) : t :=
  {| socket := socket s; reconnectAttempts := reconnectAttempts s;
     pingInterval := pingInterval s; currentSessionId := currentSessionId s;
     currentMessageId := v |}.

End Fields.

Definition maxReconnectAttempts : Z := 5.

(** What the two classes do to their surroundings, in program order. *)
Inductive Effect : Type :=
| fx_open (sessionId token : string)
| fx_complete (s : Socket)
| fx_next (s : Socket) (m : ClientMessage)
| fx_broadcast (m : ServerMessage)
| fx_http_get_messages (sessionId : string)
| fx_timer (delay : Z)
| fx_setInterval (handle : nat) (ms : Z)
| fx_clearInterval (handle : nat).

(** [Browser.t]: the two oracles with their cursors, the [access_token]
    entry of [localStorage], the delays of the armed and not yet fired
    reconnection timers, the next [setInterval] handle, and the trace. *)

Module Browser.

Record t : Type := mkBrowser {
  uuidSource : nat -> string;
  uuidCursor : nat;
  clockSource : nat -> Z;
  clockCursor : nat;
  access_token : option string;
  timers : list Z;
  nextHandle : nat;
  trace : list Effect
}.

Definition set_uuidSource (v : nat -> string) (s : t) : t :=
  {| uuidSource := v; uuidCursor := uuidCursor s;
     clockSource := clockSource s; clockCursor := clockCursor s;
     access_token := access_token s; timers := timers s;
     nextHandle := nextHandle s; trace := trace s |}.

Definition set_uuidCursor (v : nat) (s : t) : t :=
  {| uuidSource := uuidSource s; uuidCursor := v;
     clockSource := clockSource s; clockCursor := clockCursor s;
     access_token := access_token s; timers := timers s;
     nextHandle := nextHandle s; trace := trace s |}.

Definition set_clockSource (v : nat -> Z) (s : t) : t :=
  {| uuidSource := uuidSource s; uuidCursor := uuidCursor s;
     clockSource := v; clockCursor := clockCursor s;
     access_token := access_token s; timers := timers s;
     nextHandle := nextHandle s; trace := trace s |}.

Definition set_clockCursor (v : nat) (s : t) : t :=
  {| uuidSource := uuidSource s; uuidCursor := uuidCursor s;
     clockSource := clockSource s; clockCursor := v;
     access_token := access_token s; timers := timers s;
     nextHandle := nextHandle s; trace := trace s |}.

Definition set_access_token (v : option string) (s : t) : t :=
  {| uuidSource := uuidSource s; uuidCursor := uuidCursor s;
     clockSource := clockSource s; clockCursor := clockCursor s;
     access_token := v; timers := timers s; nextHandle := nextHandle s;
     trace := trace s |}.

Definition set_timers (v : list Z) (s : t) : t :=
  {| uuidSource := uuidSource s; uuidCursor := uuidCursor s;
     clockSource := clockSource s; clockCursor := clockCursor s;
     access_token := access_token s; timers := v; nextHandle := nextHandle s;
     trace := trace s |}.

Definition set_nextHandle (v : nat) (s : t) : t :=
  {| uuidSource := uuidSource s; uuidCursor := uuidCursor s;
     clockSource := clockSource s; clockCursor := clockCursor s;
     access_token := access_token s; timers := timers s; nextHandle := v;
     trace := trace s |}.

Definition set_trace (v : list Effect) (s : t) : t :=
  {| uuidSource := uuidSource s; uuidCursor := uuidCursor s;
     clockSource := clockSource s; clockCursor := clockCursor s;
     access_token := access_token s; timers := timers s;
     nextHandle := nextHandle s; trace := v |}.

End Browser.

Module World.

Record t : Type := mkWorld {
  store : Signals.t;
  service : Fields.t;
  browser : Browser.t
}.

Definition set_store (v : Signals.t) (s : t) : t :=
  {| store := v; service := service s; browser := browser s |}.

Definition set_service (v : Fields.t) (s : t) : t :=
  {| store := store s; service := v; browser := browser s |}.

Definition set_browser (v : Browser.t) (s : t) : t :=
  {| store := store s; service := service s; browser := v |}.

End World.

(** ** The state monad of the two classes *)

Definition M (A : Type) : Type := World.t -> A * World.t.

Definition ret {A : Type} (a : A) : M A := fun w => (a, w).

Definition bind {A B : Type} (m : M A) (k : A -> M B) : M B :=
  fun w => let (a, w') := m w in k a w'.

Declare Scope monad_scope.
Delimit Scope monad_scope with monad.
Notation "x <- c1 ;; c2" := (bind c1 (fun x => c2))
  (at level 100, c1 at next level, right associativity) : monad_scope.
Notation "c1 ;; c2" := (bind c1 (fun _ => c2))
  (at level 100, right associativity) : monad_scope.
Open Scope monad_scope.

(** The world a method leaves behind, and the value it returns. *)
Definition exec {A : Type} (m : M A) (w : World.t) : World.t := snd (m w).
Definition eval {A : Type} (m : M A) (w : World.t) : A := fst (m w).

(** [skip] is the empty statement; [when c m] is [if (c) { m }]. *)
Definition skip : M unit := ret tt.
Definition when (c : bool) (m : M unit) : M unit := if c then m else skip.

(** Signals: [sig()], [sig.set(v)] and [sig.update(f)].  A write bumps the
    ghost counter. *)
Definition bump (s : Signals.t) : Signals.t :=
  Signals.set_mutations (S (Signals.mutations s)) s.

Definition signal_get {A : Type} (get : Signals.t -> A) : M A :=
  fun w => (get (World.store w), w).

Definition signal_set {A : Type} (set : A -> Signals.t -> Signals.t) (v : A)
  : M unit :=
  fun w => (tt, World.set_store (bump (set v (World.store w))) w).

Definition signal_update {A : Type} (get : Signals.t -> A)
  (set : A -> Signals.t -> Signals.t) (f : A -> A) : M unit :=
  fun w =>
    let s := World.store w in
    (tt, World.set_store (bump (set (f (get s)) s)) w).

(** Private fields of the service: [this.f] and [this.f = v]. *)
Definition field_get {A : Type} (get : Fields.t -> A) : M A :=
  fun w => (get (World.service w), w).

Definition field_set {A : Type} (set : A -> Fields.t -> Fields.t) (v : A)
  : M unit :=
  fun w => (tt, World.set_service (set v (World.service w)) w).

(** The browser. *)
Definition browser_get {A : Type} (get : Browser.t -> A) : M A :=
  fun w => (get (World.browser w), w).

Definition browser_set {A : Type} (set : A -> Browser.t -> Browser.t) (v : A)
  : M unit :=
  fun w => (tt, World.set_browser (set v (World.browser w)) w).

Definition emit (e : Effect) : M unit :=
  tr <- browser_get Browser.trace ;;
  browser_set Browser.set_trace (tr ++ [e]).

(** [crypto.randomUUID()] *)
Definition randomUUID : M string :=
  src <- browser_get Browser.uuidSource ;;
  i <- browser_get Browser.uuidCursor ;;
  browser_set Browser.set_uuidCursor (S i) ;;
  ret (src i).

(** [new Date()] *)
Definition newDate : M JsDate :=
  src <- browser_get Browser.clockSource ;;
  i <- browser_get Browser.clockCursor ;;
  browser_set Browser.set_clockCursor (S i) ;;
  ret (DateOfClock (src i)).

(** [timer(delay).pipe(takeUntil(destroy$)).subscribe(...)]: arms a one-shot
    timer; the service keeps no handle on it. *)
Definition timer (delay : Z) : M unit :=
  ts <- browser_get Browser.timers ;;
  browser_set Browser.set_timers (ts ++ [delay]) ;;
  emit (fx_timer delay).

(** [setInterval(cb, ms)] returns a fresh handle; handles start at 1, so a
    handle is truthy. *)
Definition setInterval (ms : Z) : M nat :=
  h <- browser_get Browser.nextHandle ;;
  browser_set Browser.set_nextHandle (S h) ;;
  emit (fx_setInterval h ms) ;;
  ret h.

Definition clearInterval (h : nat) : M unit := emit (fx_clearInterval h).

(** JavaScript truthiness of a [string | null]: neither null nor empty. *)
Definition truthy (o : option string) : bool :=
  match o with
  | Some s => negb (String.eqb s "")
  | None => false
  end.

(** [Array.prototype.join] on an array of strings. *)
Fixpoint join (sep : string) (l : list string) : string :=
  match l with
  | [] => ""
  | [x] => x
  | x :: rest => x +:+ sep +:+ join sep rest
  end.

(** [Array.prototype.findIndex]: the first index whose element satisfies the
    predicate, or -1. *)
Fixpoint findIndex {A : Type} (p : A -> bool) (l : list A) : Z :=
  match l with
  | [] => -1
  | x :: rest =>
      if p x then 0
      else let i := findIndex p rest in if i <? 0 then -1 else i + 1
  end.

(** ** SessionStore (session.store.ts) *)

(** The [metadata] argument of [finalizeAssistantMessage].  Every key is
    optional: [None] is an absent key, which the object spread leaves alone;
    [Some v] is a present key, which the spread copies even when [v] is
    [undefined] ([None]). *)
Record FinalizeMetadata : Type := {
  md_queryType : option (option string);
  md_confidence : option (option Confidence);
  md_sources : option (option (list SourceCitation));
  md_calculations : option (option (list CalculationPayload));
  md_assumptions : option (option (list Assumption));
  md_suggestedFollowups : option (option (list string))
}.

(** One property through [{...msg, ...metadata}]. *)
Definition spread {A : Type} (patch : option (option A)) (old : option A)
  : option A :=
  match patch with
  | Some v => v
  | None => old
  end.

(** [{ ...msg, content: finalContent, isStreaming: false, ...metadata }] *)
Definition finalized (finalContent : string) (metadata : FinalizeMetadata)
  (msg : ChatMessage) : ChatMessage :=
  {| id := id msg;
     role := role msg;
     content := finalContent;
     timestamp := timestamp msg;
     isStreaming := Some false;
     queryType := spread (md_queryType metadata) (queryType msg);
     confidence := spread (md_confidence metadata) (confidence msg);
     sources := spread (md_sources metadata) (sources msg);
     calculations := spread (md_calculations metadata) (calculations msg);
     assumptions := spread (md_assumptions metadata) (assumptions msg);
     suggestedFollowups :=
       spread (md_suggestedFollowups metadata) (suggestedFollowups msg) |}.

Module SessionStore.

(** Derived state *)
Definition hasDrawing (s : Signals.t) : bool :=
  (0 <? Z.of_nat (length (Signals.drawingObjects s))).

Definition hasPlotBoundary (s : Signals.t) : bool :=
  match Signals.contextMetadata s with
  | Some md => has_plot_boundary md
  | None => false
  end.

Definition isWaitingForUser (s : Signals.t) : bool :=
  match Signals.pendingClarification s with
  | Some _ => true
  | None => false
  end.

Definition canSendQuery (s : Signals.t) : bool :=
  bool_decide (Signals.wsStatus s = connected)
  && negb (Signals.isAgentThinking s)
  && negb (isWaitingForUser s).

Definition layersPresent (s : Signals.t) : list string :=
  match Signals.contextMetadata s with
  | Some md => layers_present md
  | None => []
  end.

(** Chat and drawing resets *)
Definition clearChatState : M unit :=
  signal_set Signals.set_messages [] ;;
  signal_set Signals.set_reasoningSteps [] ;;
  signal_set Signals.set_isAgentThinking false ;;
  signal_set Signals.set_streamingContent "" ;;
  signal_set Signals.set_pendingClarification None.

Definition clearDrawingState : M unit :=
  signal_set Signals.set_drawingObjects [] ;;
  signal_set Signals.set_contextMetadata None ;;
  signal_set Signals.set_contextVersion 0.

(** Session actions *)
Definition setCurrentSession (sessionId : option string) : M unit :=
  signal_set Signals.set_currentSessionId sessionId ;;
  match sessionId with
  | None => clearChatState ;; clearDrawingState
  | Some _ => skip
  end.

Definition setSessions (sessions : list SessionListItem) : M unit :=
  signal_set Signals.set_sessions sessions.

Definition addSession (session : SessionListItem) : M unit :=
  signal_update Signals.sessions Signals.set_sessions
    (fun current => session :: current).

Definition removeSession (sessionId : string) : M unit :=
  signal_update Signals.sessions Signals.set_sessions
    (fun current =>
       filter (fun s => session_id s ≠ sessionId) current) ;;
  cur <- signal_get Signals.currentSessionId ;;
  when (bool_decide (cur = Some sessionId)) (setCurrentSession None).

(** Connection actions: [error ?? null] is the identity on an option. *)
Definition setConnectionStatus (status : ConnectionStatus)
  (error : option string) : M unit :=
  signal_set Signals.set_wsStatus status ;;
  signal_set Signals.set_wsError error.

(** Drawing context actions *)
Definition setDrawingContext (objects : list DrawingObject)
  (metadata : ContextMetadata) : M unit :=
  signal_set Signals.set_drawingObjects objects ;;
  signal_set Signals.set_contextMetadata (Some metadata) ;;
  signal_set Signals.set_contextVersion (context_version metadata).

Definition updateContextVersion (version : Z) : M unit :=
  signal_set Signals.set_contextVersion version.

(** Chat actions *)
Definition addUserMessage (content : string) : M string :=
  id <- randomUUID ;;
  now <- newDate ;;
  let message :=
    {| id := id; role := user; content := content; timestamp := now;
       isStreaming := None; queryType := None; confidence := None;
       sources := None; calculations := None; assumptions := None;
       suggestedFollowups := None |} in
  signal_update Signals.messages Signals.set_messages
    (fun current => current ++ [message]) ;;
  ret id.

Definition startAssistantMessage : M string :=
  id <- randomUUID ;;
  now <- newDate ;;
  let message :=
    {| id := id; role := assistant; content := ""; timestamp := now;
       isStreaming := Some true; queryType := None; confidence := None;
       sources := None; calculations := None; assumptions := None;
       suggestedFollowups := None |} in
  signal_update Signals.messages Signals.set_messages
    (fun current => current ++ [message]) ;;
  signal_set Signals.set_isAgentThinking true ;;
  signal_set Signals.set_streamingContent "" ;;
  signal_set Signals.set_reasoningSteps [] ;;
  ret id.

Definition appendToStreamingContent (chunk : string) : M unit :=
  signal_update Signals.streamingContent Signals.set_streamingContent
    (fun current => current +:+ chunk).

Definition finalizeAssistantMessage (messageId finalContent : string)
  (metadata : FinalizeMetadata) : M unit :=
  signal_update Signals.messages Signals.set_messages
    (fun current =>
       map (fun msg =>
              if bool_decide (id msg = messageId)
              then finalized finalContent metadata msg
              else msg)
           current) ;;
  signal_set Signals.set_isAgentThinking false ;;
  signal_set Signals.set_streamingContent "".

(** The updater passed to [reasoningSteps.update]. *)
Definition upsertStep (step : ReasoningStep) (current : list ReasoningStep)
  : list ReasoningStep :=
  let existing :=
    findIndex (fun s => bool_decide (stepIndex s = stepIndex step)) current in
  if 0 <=? existing
  then <[Z.to_nat existing := step]> current
  else current ++ [step].

Definition addReasoningStep (step : ReasoningStep) : M unit :=
  signal_update Signals.reasoningSteps Signals.set_reasoningSteps
    (upsertStep step).

Definition setPendingClarification
  (request : option ClarificationRequestPayload) : M unit :=
  match request with
  | Some request =>
      now <- newDate ;;
      signal_set Signals.set_pendingClarification
        (Some {| request := request; receivedAt := now |}) ;;
      signal_set Signals.set_isAgentThinking false
  | None => signal_set Signals.set_pendingClarification None
  end.

(** Auth actions *)
Definition setAuthenticated (userId email : string) : M unit :=
  signal_set Signals.set_isAuthenticated true ;;
  signal_set Signals.set_currentUserId (Some userId) ;;
  signal_set Signals.set_currentUserEmail (Some email).

Definition clearAuth : M unit :=
  signal_set Signals.set_isAuthenticated false ;;
  signal_set Signals.set_currentUserId None ;;
  signal_set Signals.set_currentUserEmail None ;;
  setCurrentSession None ;;
  setSessions [].

End SessionStore.

(** ** WebSocketService (websocket.service.ts) *)

(** [Array] indexing: [undefined] outside the array. *)
Definition at_index {A : Type} (l : list A) (i : Z) : option A :=
  if i <? 0 then None else l !! Z.to_nat i.

Definition exhausted_message : string :=
  "Connection failed after multiple attempts".

Module WebSocketService.

Definition stopPingInterval : M unit :=
  pingInterval <- field_get Fields.pingInterval ;;
  match pingInterval with
  | Some h =>
      clearInterval h ;;
      field_set Fields.set_pingInterval None
  | None => skip
  end.

(** The callback given to [setInterval] by [startPingInterval]. *)
Definition pingCallback : M unit :=
  socket <- field_get Fields.socket ;;
  match socket with
  | Some s => emit (fx_next s msg_ping)
  | None => skip
  end.

Definition startPingInterval : M unit :=
  stopPingInterval ;;
  h <- setInterval 30000 ;;
  field_set Fields.set_pingInterval (Some h).

Definition disconnect : M unit :=
  stopPingInterval ;;
  socket <- field_get Fields.socket ;;
  match socket with
  | Some s =>
      emit (fx_complete s) ;;
      field_set Fields.set_socket None
  | None => skip
  end ;;
  field_set Fields.set_currentSessionId None ;;
  SessionStore.setConnectionStatus disconnected None.

(** [connect]: the three observers it installs are [openObserver],
    [closeObserver] and [catchError] below; they run when the transport
    calls them. *)
Definition connect (sessionId token : string) : M unit :=
  socket <- field_get Fields.socket ;;
  match socket with
  | Some _ => disconnect
  | None => skip
  end ;;
  field_set Fields.set_currentSessionId (Some sessionId) ;;
  SessionStore.setConnectionStatus connecting None ;;
  field_set Fields.set_socket
    (Some {| sock_sessionId := sessionId; sock_token := token |}) ;;
  emit (fx_open sessionId token).

(** The callback subscribed to the reconnection timer. *)
Definition retryCallback : M unit :=
  token <- browser_get Browser.access_token ;;
  currentSessionId <- field_get Fields.currentSessionId ;;
  match token, currentSessionId with
  | Some t, Some sid =>
      when (truthy token && truthy currentSessionId) (connect sid t)
  | _, _ => skip
  end.

(** [Math.pow(2, n)] is [2 ^ n] on the counter's values, which are never
    negative. *)
Definition handleDisconnect : M unit :=
  reconnectAttempts <- field_get Fields.reconnectAttempts ;;
  currentSessionId <- field_get Fields.currentSessionId ;;
  if (reconnectAttempts <? maxReconnectAttempts) && truthy currentSessionId
  then
    field_set Fields.set_reconnectAttempts (reconnectAttempts + 1) ;;
    reconnectAttempts <- field_get Fields.reconnectAttempts ;;
    let delay := Z.min (1000 * 2 ^ reconnectAttempts) 30000 in
    timer delay
  else
    SessionStore.setConnectionStatus error (Some exhausted_message).

(** [openObserver.next] *)
Definition openObserver : M unit :=
  field_set Fields.set_reconnectAttempts 0 ;;
  startPingInterval.

(** [closeObserver.next(event)] with [event.wasClean] *)
Definition closeObserver (wasClean : bool) : M unit :=
  stopPingInterval ;;
  if wasClean
  then SessionStore.setConnectionStatus disconnected None
  else handleDisconnect.

(** The [catchError] handler, with [error.message]; it replaces the failed
    stream by [EMPTY], so the [error] callback of [subscribe] never runs. *)
Definition catchError (message : option string) : M unit :=
  SessionStore.setConnectionStatus error message.

(** [includeReasoning] defaults to [true] at the call sites that omit it. *)
Definition sendQuery (content : string) (includeReasoning : bool) : M unit :=
  socket <- field_get Fields.socket ;;
  wsStatus <- signal_get Signals.wsStatus ;;
  match socket with
  | Some s =>
      if bool_decide (wsStatus = connected)
      then
        id <- SessionStore.addUserMessage content ;;
        field_set Fields.set_currentMessageId (Some id) ;;
        SessionStore.startAssistantMessage ;;
        emit (fx_next s (msg_query content includeReasoning))
      else skip
  | None => skip
  end.

Definition sendClarificationResponse (questionId value : string)
  (text : option string) : M unit :=
  socket <- field_get Fields.socket ;;
  wsStatus <- signal_get Signals.wsStatus ;;
  match socket with
  | Some s =>
      if bool_decide (wsStatus = connected)
      then
        SessionStore.setPendingClarification None ;;
        SessionStore.startAssistantMessage ;;
        emit (fx_next s (msg_clarification_response questionId value text))
      else skip
  | None => skip
  end.

Definition sendCancel : M unit :=
  socket <- field_get Fields.socket ;;
  match socket with
  | Some s => emit (fx_next s msg_cancel)
  | None => skip
  end.

(** [handleConnected] also asks the backend for the message history.  The
    request is recorded in the trace.  Its answer arrives as a later event
    and is passed to a store method, [loadMessages], that session.store.ts
    does not define; that event is not part of the model. *)
Definition handleConnected (payload : ConnectedPayload) : M unit :=
  SessionStore.setConnectionStatus connected None ;;
  SessionStore.updateContextVersion (cp_context_version payload) ;;
  currentSessionId <- field_get Fields.currentSessionId ;;
  match currentSessionId with
  | Some sid => when (truthy currentSessionId) (emit (fx_http_get_messages sid))
  | None => skip
  end.

Definition handleReasoningStep (payload : ReasoningStepPayload) : M unit :=
  SessionStore.addReasoningStep
    {| stepIndex := step_index payload;
       node := rsp_node payload;
       status := rsp_status payload;
       message := rsp_message payload;
       rs_timestamp := DateOfString (rsp_timestamp payload) |}.

Definition handleToken (payload : TokenPayload) : M unit :=
  SessionStore.appendToStreamingContent (chunk payload).

Definition handleTokens (payload : TokensPayload) : M unit :=
  let combined := join "" (chunks payload) in
  SessionStore.appendToStreamingContent combined.

Definition handleClarificationRequest (payload : ClarificationRequestPayload)
  : M unit :=
  SessionStore.setPendingClarification (Some payload).

Definition handleCalculation (_payload : CalculationPayload) : M unit :=
  skip.

Definition handleContextUpdated (payload : ContextUpdatedPayload) : M unit :=
  SessionStore.updateContextVersion (version payload).

(** The metadata object literal of [handleResponseComplete]: all six keys
    are present. *)
Definition metadata_of (payload : ResponseCompletePayload)
  : FinalizeMetadata :=
  {| md_queryType := Some (Some (query_type payload));
     md_confidence := Some (Some (rc_confidence payload));
     md_sources := Some (Some (rc_sources payload));
     md_calculations := Some (Some (rc_calculations payload));
     md_assumptions := Some (Some (rc_assumptions payload));
     md_suggestedFollowups := Some (Some (suggested_followups payload)) |}.

Definition handleResponseComplete (payload : ResponseCompletePayload)
  : M unit :=
  messages <- signal_get Signals.messages ;;
  let lastMessage := at_index messages (Z.of_nat (length messages) - 1) in
  match lastMessage with
  | Some lastMessage =>
      if bool_decide (role lastMessage = assistant)
      then
        SessionStore.finalizeAssistantMessage (id lastMessage)
          (final_answer payload) (metadata_of payload)
      else skip
  | None => skip
  end.

Definition handleError (payload : ErrorPayload) : M unit :=
  SessionStore.setConnectionStatus error (Some (ep_message payload)) ;;
  when (negb (recoverable payload)) disconnect.

Definition handleMessage (message : ServerMessage) : M unit :=
  emit (fx_broadcast message) ;;
  match message with
  | msg_connected p => handleConnected p
  | msg_reasoning_step p => handleReasoningStep p
  | msg_token p => handleToken p
  | msg_tokens p => handleTokens p
  | msg_clarification_request p => handleClarificationRequest p
  | msg_calculation p => handleCalculation p
  | msg_context_updated p => handleContextUpdated p
  | msg_response_complete p => handleResponseComplete p
  | msg_error p => handleError p
  | msg_pong => skip
  | msg_other _ => skip
  end.

(** [ngOnDestroy]: [destroy$.next()] ends every [takeUntil(destroy$)]
    subscription, so the armed reconnection timers are dropped. *)
Definition ngOnDestroy : M unit :=
  browser_set Browser.set_timers [] ;;
  disconnect.

End WebSocketService.

(** ** Events

    Everything runs in reaction to a discrete event and to completion: a
    call made by a component, a callback of the transport, a timer. *)

(** The store's mutating operations, called directly. *)
Inductive StoreCall : Type :=
| op_setCurrentSession (sessionId : option string)
| op_setSessions (sessions : list SessionListItem)
| op_addSession (session : SessionListItem)
| op_removeSession (sessionId : string)
| op_setConnectionStatus (status : ConnectionStatus) (error : option string)
| op_setDrawingContext (objects : list DrawingObject)
    (metadata : ContextMetadata)
| op_updateContextVersion (version : Z)
| op_clearDrawingState
| op_addUserMessage (content : string)
| op_startAssistantMessage
| op_appendToStreamingContent (chunk : string)
| op_finalizeAssistantMessage (messageId finalContent : string)
    (metadata : FinalizeMetadata)
| op_addReasoningStep (step : ReasoningStep)
| op_setPendingClarification (request : option ClarificationRequestPayload)
| op_clearChatState
| op_setAuthenticated (userId email : string)
| op_clearAuth.

Definition store_call (c : StoreCall) : M unit :=
  match c with
  | op_setCurrentSession sid => SessionStore.setCurrentSession sid
  | op_setSessions l => SessionStore.setSessions l
  | op_addSession s => SessionStore.addSession s
  | op_removeSession sid => SessionStore.removeSession sid
  | op_setConnectionStatus st err => SessionStore.setConnectionStatus st err
  | op_setDrawingContext objs md => SessionStore.setDrawingContext objs md
  | op_updateContextVersion v => SessionStore.updateContextVersion v
  | op_clearDrawingState => SessionStore.clearDrawingState
  | op_addUserMessage c => _ <- SessionStore.addUserMessage c ;; skip
  | op_startAssistantMessage => _ <- SessionStore.startAssistantMessage ;; skip
  | op_appendToStreamingContent c => SessionStore.appendToStreamingContent c
  | op_finalizeAssistantMessage mid c md =>
      SessionStore.finalizeAssistantMessage mid c md
  | op_addReasoningStep s => SessionStore.addReasoningStep s
  | op_setPendingClarification r => SessionStore.setPendingClarification r
  | op_clearChatState => SessionStore.clearChatState
  | op_setAuthenticated u e => SessionStore.setAuthenticated u e
  | op_clearAuth => SessionStore.clearAuth
  end.

Inductive Event : Type :=
(* calls *)
| ev_store (c : StoreCall)
| ev_connect (sessionId token : string)
| ev_disconnect
| ev_sendQuery (content : string) (includeReasoning : bool)
| ev_sendClarificationResponse (questionId value : string)
    (text : option string)
| ev_sendCancel
| ev_ngOnDestroy
(* transport callbacks, one handler each: [openObserver.next],
   [closeObserver.next], the [next] callback of [subscribe], the [catchError]
   handler; the handlers one socket event runs are listed by [unclean_close]
   and [socket_failure] below *)
| ev_open
| ev_close (wasClean : bool)
| ev_frame (message : ServerMessage)
| ev_stream_error (message : option string)
(* timers: the [i]-th armed reconnection timer, the keepalive interval *)
| ev_retry_timer (i : nat)
| ev_ping_tick
(* another service rewrites [localStorage.access_token] *)
| ev_access_token (token : option string).

Definition step (e : Event) : M unit :=
  match e with
  | ev_store c => store_call c
  | ev_connect sid tok => WebSocketService.connect sid tok
  | ev_disconnect => WebSocketService.disconnect
  | ev_sendQuery c r => WebSocketService.sendQuery c r
  | ev_sendClarificationResponse q v t =>
      WebSocketService.sendClarificationResponse q v t
  | ev_sendCancel => WebSocketService.sendCancel
  | ev_ngOnDestroy => WebSocketService.ngOnDestroy
  | ev_open => WebSocketService.openObserver
  | ev_close wasClean => WebSocketService.closeObserver wasClean
  | ev_frame m => WebSocketService.handleMessage m
  | ev_stream_error m => WebSocketService.catchError m
  | ev_retry_timer i =>
      ts <- browser_get Browser.timers ;;
      match ts !! i with
      | Some _ =>
          browser_set Browser.set_timers (delete i ts) ;;
          WebSocketService.retryCallback
      | None => skip
      end
  | ev_ping_tick =>
      pingInterval <- field_get Fields.pingInterval ;;
      match pingInterval with
      | Some _ => WebSocketService.pingCallback
      | None => skip
      end
  | ev_access_token t => browser_set Browser.set_access_token t
  end.

Definition run (es : list Event) (w : World.t) : World.t :=
  foldl (fun w e => exec (step e) w) w es.

(** The state at start-up: the field initialisers of the two classes. *)
Definition initial_signals : Signals.t :=
  {| Signals.currentSessionId := None;
     Signals.sessions := [];
     Signals.wsStatus := disconnected;
     Signals.wsError := None;
     Signals.drawingObjects := [];
     Signals.contextMetadata := None;
     Signals.contextVersion := 0;
     Signals.messages := [];
     Signals.reasoningSteps := [];
     Signals.isAgentThinking := false;
     Signals.streamingContent := "";
     Signals.pendingClarification := None;
     Signals.isAuthenticated := false;
     Signals.currentUserId := None;
     Signals.currentUserEmail := None;
     Signals.mutations := 0 |}.

Definition initial_fields : Fields.t :=
  {| Fields.socket := None;
     Fields.reconnectAttempts := 0;
     Fields.pingInterval := None;
     Fields.currentSessionId := None;
     Fields.currentMessageId := None |}.

Definition initial_browser (uuids : nat -> string) (clock : nat -> Z)
  (token : option string) : Browser.t :=
  {| Browser.uuidSource := uuids;
     Browser.uuidCursor := 0;
     Browser.clockSource := clock;
     Browser.clockCursor := 0;
     Browser.access_token := token;
     Browser.timers := [];
     Browser.nextHandle := 1;
     Browser.trace := [] |}.

Definition initial_world (uuids : nat -> string) (clock : nat -> Z)
  (token : option string) : World.t :=
  {| World.store := initial_signals;
     World.service := initial_fields;
     World.browser := initial_browser uuids clock token |}.

(** ** Observations

    Short names for what the statements below read off a world. *)

Definition attempts (w : World.t) : Z :=
  Fields.reconnectAttempts (World.service w).
Definition bound_session (w : World.t) : option string :=
  Fields.currentSessionId (World.service w).
Definition socket_of (w : World.t) : option Socket :=
  Fields.socket (World.service w).
Definition wsStatus_of (w : World.t) : ConnectionStatus :=
  Signals.wsStatus (World.store w).
Definition wsError_of (w : World.t) : option string :=
  Signals.wsError (World.store w).
Definition messages_of (w : World.t) : list ChatMessage :=
  Signals.messages (World.store w).
Definition accumulator (w : World.t) : string :=
  Signals.streamingContent (World.store w).
Definition reasoning_trace (w : World.t) : list ReasoningStep :=
  Signals.reasoningSteps (World.store w).
Definition mutations_of (w : World.t) : nat :=
  Signals.mutations (World.store w).
Definition trace_of (w : World.t) : list Effect :=
  Browser.trace (World.browser w).
Definition armed (w : World.t) : list Z :=
  Browser.timers (World.browser w).
Definition token_of (w : World.t) : option string :=
  Browser.access_token (World.browser w).

(** The delays of the reconnection timers armed so far, oldest first. *)
Definition timer_delays (tr : list Effect) : list Z :=
  omap (fun e => match e with fx_timer d => Some d | _ => None end) tr.

(** The sockets opened so far. *)
Definition opened (tr : list Effect) : list (string * string) :=
  omap (fun e => match e with fx_open s t => Some (s, t) | _ => None end) tr.

(** The frames handed to a socket so far. *)
Definition sent (tr : list Effect) : list ClientMessage :=
  omap (fun e => match e with fx_next _ m => Some m | _ => None end) tr.

(** *** Reconnection *)


(** The handlers run by one close event that is not clean.  [webSocket]
    calls [closeObserver.next] and then errors the stream with the close
    event.  While the stream set up by [connect] is still subscribed
    ([live]) the error reaches the [catchError] handler; a close event has no
    [message] property, so the handler gets [undefined].  The stream is no
    longer subscribed when the socket raised an error event before the close
    (that event errored it) or when [disconnect] completed the subject. *)
Definition unclean_close (live : bool) : list Event :=
  ev_close false :: (if live then [ev_stream_error None] else []).




(** Is the event an explicit [connect] call? *)
Definition is_connect (e : Event) : bool :=
  match e with
  | ev_connect _ _ => true
  | _ => false
  end.

(** Nothing is bound: no socket handle and no session. *)
Definition unbound (w : World.t) : Prop :=
  socket_of w = None /\ bound_session w = None.

(** *** Streaming *)

(** [c1 + ... + cn], the literal concatenation. *)
Definition concatenation (cs : list string) : string :=
  foldr String.append "" cs.

(** One [token] frame per payload, in order. *)
Definition token_frames (ps : list TokenPayload) : list Event :=
  map (fun p => ev_frame (msg_token p)) ps.

(** *** Messages *)

(** The update [finalizeAssistantMessage] maps over the messages. *)
Definition finalize_in (messageId finalContent : string)
  (metadata : FinalizeMetadata) (l : list ChatMessage) : list ChatMessage :=
  map (fun msg =>
         if bool_decide (id msg = messageId)
         then finalized finalContent metadata msg
         else msg) l.

(** The number of messages whose [isStreaming] is [true]. *)
Definition is_streaming (m : ChatMessage) : bool :=
  match isStreaming m with
  | Some true => true
  | _ => false
  end.

Definition streaming_count (l : list ChatMessage) : nat :=
  length (filter (fun m => is_streaming m = true) l).

(** Does the event start an assistant turn in this world?  It does when it
    is [startAssistantMessage] itself, or a [sendQuery] /
    [sendClarificationResponse] that passes its guard. *)
Definition starts_turn (e : Event) (w : World.t) : bool :=
  match e with
  | ev_store op_startAssistantMessage => true
  | ev_sendQuery _ _ | ev_sendClarificationResponse _ _ _ =>
      match socket_of w with
      | Some _ => bool_decide (wsStatus_of w = connected)
      | None => false
      end
  | _ => false
  end.

(** A run in which a turn is only started while no message is streaming. *)
Fixpoint disciplined (es : list Event) (w : World.t) : Prop :=
  match es with
  | [] => True
  | e :: es' =>
      (starts_turn e w = true -> streaming_count (messages_of w) = 0%nat)
      /\ disciplined es' (exec (step e) w)
  end.

(** *** Reasoning trace *)

(** The step that [handleReasoningStep] builds from a payload. *)
Definition step_of (p : ReasoningStepPayload) : ReasoningStep :=
  {| stepIndex := step_index p;
     node := rsp_node p;
     status := rsp_status p;
     message := rsp_message p;
     rs_timestamp := DateOfString (rsp_timestamp p) |}.

(** The step indices of a trace, in trace order. *)
Definition indices (t : list ReasoningStep) : list Z := map stepIndex t.

Definition reasoning_frames (ps : list ReasoningStepPayload) : list Event :=
  map (fun p => ev_frame (msg_reasoning_step p)) ps.

(** The trace after the deliveries [ps], started from the trace [t0]. *)
Definition delivered (ps : list ReasoningStepPayload)
  (t0 : list ReasoningStep) : list ReasoningStep :=
  foldl (fun t p => SessionStore.upsertStep (step_of p) t) t0 ps.

(** ** Sample runs

    Concrete worlds and payloads for the closed examples. *)

Definition sample_uuids (n : nat) : string :=
  match n with
  | O => "uuid-0"
  | 1%nat => "uuid-1"
  | 2%nat => "uuid-2"
  | _ => "uuid-n"
  end.

Definition sample_clock (n : nat) : Z := 1700000000000 + Z.of_nat n.

(** Start-up, with an access token in [localStorage]. *)
Definition sample_world : World.t :=
  initial_world sample_uuids sample_clock (Some "tok").

Definition sample_socket : Socket :=
  {| sock_sessionId := "s1"; sock_token := "tok" |}.

Definition second_socket : Socket :=
  {| sock_sessionId := "s2"; sock_token := "tok" |}.

Definition sample_connected : ConnectedPayload :=
  {| cp_session_id := "s1"; cp_has_context := false;
     cp_context_version := 1 |}.

Definition second_connected : ConnectedPayload :=
  {| cp_session_id := "s2"; cp_has_context := false;
     cp_context_version := 1 |}.

Definition sample_tokens : list TokenPayload :=
  [ {| chunk := "Hel"; tp_node := "answer"; token_index := 0 |};
    {| chunk := "lo, "; tp_node := "answer"; token_index := 1 |};
    {| chunk := "world"; tp_node := "answer"; token_index := 2 |} ].

Definition sample_answer (text : string) : ResponseCompletePayload :=
  {| message_id := "m1"; final_answer := text; rc_confidence := high;
     query_type := "rule_lookup"; rc_sources := []; rc_calculations := [];
     rc_assumptions := []; suggested_followups := [] |}.

Definition sample_request : ClarificationRequestPayload :=
  {| crp_id := "c1"; question := "Is the house detached?";
     why_needed := "The limit depends on it"; field_name := "house_type";
     options := None; priority := 1; affects_rules := ["A.1(f)"] |}.

Definition fatal_error : ErrorPayload :=
  {| code := "SESSION_EXPIRED"; ep_message := "Session expired";
     recoverable := false |}.

Definition no_metadata : FinalizeMetadata :=
  {| md_queryType := None; md_confidence := None; md_sources := None;
     md_calculations := None; md_assumptions := None;
     md_suggestedFollowups := None |}.

Definition sample_step (i : Z) (st : StepStatus) : ReasoningStepPayload :=
  {| step_index := i; rsp_node := "retrieve"; rsp_status := st;
     rsp_message := "working"; rsp_timestamp := "2025-01-01T00:00:00Z" |}.

(** Steps 1, 2, 3 start; step 2 is delivered again, completed. *)
Definition sample_deliveries : list ReasoningStepPayload :=
  [sample_step 1 processing; sample_step 2 processing;
   sample_step 3 processing; sample_step 2 completed].



(** A session that is up: connect, socket open, [connected] received. *)
Definition session_up : list Event :=
  [ev_connect "s1" "tok"; ev_open; ev_frame (msg_connected sample_connected)].

Definition session_running : World.t := run session_up sample_world.

(** A turn in progress: the placeholder is streaming, some text arrived. *)
Definition turn_streaming : World.t :=
  run (session_up ++
       [ev_sendQuery "May I extend?" true;
        ev_frame (msg_token
          {| chunk := "partial"; tp_node := "answer"; token_index := 0 |})])
      sample_world.

(** The placeholder that [turn_streaming] ends with. *)
Definition streaming_placeholder : ChatMessage :=
  {| id := "uuid-1"; role := assistant; content := "";
     timestamp := DateOfClock 1700000000001; isStreaming := Some true;
     queryType := None; confidence := None; sources := None;
     calculations := None; assumptions := None; suggestedFollowups := None |}.

(** A completed turn: the placeholder of the query has been finalized. *)
Definition turn_completed : World.t :=
  run (session_up ++
       [ev_sendQuery "May I extend?" true;
        ev_frame (msg_response_complete (sample_answer "first answer"))])
      sample_world.

(** Two turns, the second started after the first was finalized. *)
Definition two_turns : list Event :=
  session_up ++
  [ev_sendQuery "May I extend?" true;
   ev_frame (msg_response_complete (sample_answer "first answer"));
   ev_sendQuery "How far?" true].

(** A turn with a clarification: the query starts a placeholder, the server
    asks, the answer starts a second placeholder. *)
Definition clarified_turn : list Event :=
  session_up ++
  [ev_sendQuery "May I extend?" true;
   ev_frame (msg_clarification_request sample_request);
   ev_sendClarificationResponse "c1" "detached" None].

(** The connection drops and a retry is armed; [disconnect] is called and
    nothing connects again. *)
Definition dropped_then_disconnected : World.t :=
  run (session_up ++ [ev_close false; ev_disconnect]) sample_world.

(** The connection of session s1 drops and a retry is armed; [disconnect]
    is called while it is pending, and the user moves on to session s2,
    which comes up. *)
Definition switched_session : World.t :=
  run (session_up ++
       [ev_close false; ev_disconnect;
        ev_connect "s2" "tok"; ev_open;
        ev_frame (msg_connected second_connected)])
      sample_world.

(** ** Resources held

    What the trace says is still held: an interval set and not cleared
    since, a socket opened and not completed since. *)

#[global] Instance Socket_eq_dec : EqDecision Socket.
Proof. solve_decision. Defined.

Definition track_interval (live : list nat) (e : Effect) : list nat :=
  match e with
  | fx_setInterval h _ => live ++ [h]
  | fx_clearInterval h => filter (fun x => x <> h) live
  | _ => live
  end.

Definition live_intervals (tr : list Effect) : list nat :=
  foldl track_interval [] tr.

Definition track_socket (live : list Socket) (e : Effect) : list Socket :=
  match e with
  | fx_open sid tok =>
      live ++ [{| sock_sessionId := sid; sock_token := tok |}]
  | fx_complete s => filter (fun x => x <> s) live
  | _ => live
  end.

Definition live_sockets (tr : list Effect) : list Socket :=
  foldl track_socket [] tr.

Definition pingInterval_of (w : World.t) : option nat :=
  Fields.pingInterval (World.service w).

(** The store without its ghost counter. *)
Definition signals_of (w : World.t) : Signals.t :=
  Signals.set_mutations 0 (World.store w).

(** The frames broadcast on [messages$] so far. *)
Definition broadcasts (tr : list Effect) : list ServerMessage :=
  omap (fun e => match e with fx_broadcast m => Some m | _ => None end) tr.

(** The history requests issued so far. *)
Definition history_requests (tr : list Effect) : list string :=
  omap (fun e => match e with fx_http_get_messages s => Some s | _ => None end)
    tr.

(** A retry is armed and waits for its delay. *)
Definition backing_off : World.t :=
  run (session_up ++ [ev_close false]) sample_world.

(** A socket opened for the empty session id, which counts as no session. *)
Definition unnamed_session : World.t :=
  run [ev_connect "" "tok"; ev_open] sample_world.

(** Is the event a direct [setConnectionStatus] call on the store? *)
Definition is_direct_status (e : Event) : bool :=
  match e with
  | ev_store (op_setConnectionStatus _ _) => true
  | _ => false
  end.

(** *** Turns *)

(** The next values of the two oracles, [k] calls ahead. *)
Definition uuid_at (w : World.t) (k : nat) : string :=
  Browser.uuidSource (World.browser w)
    (Browser.uuidCursor (World.browser w) + k).

Definition clock_at (w : World.t) (k : nat) : Z :=
  Browser.clockSource (World.browser w)
    (Browser.clockCursor (World.browser w) + k).

(** The message literals of [addUserMessage] and [startAssistantMessage]. *)
Definition user_message (i : string) (now : Z) (text : string) : ChatMessage :=
  {| id := i; role := user; content := text; timestamp := DateOfClock now;
     isStreaming := None; queryType := None; confidence := None;
     sources := None; calculations := None; assumptions := None;
     suggestedFollowups := None |}.

Definition placeholder (i : string) (now : Z) : ChatMessage :=
  {| id := i; role := assistant; content := ""; timestamp := DateOfClock now;
     isStreaming := Some true; queryType := None; confidence := None;
     sources := None; calculations := None; assumptions := None;
     suggestedFollowups := None |}.

Definition thinking (w : World.t) : bool :=
  Signals.isAgentThinking (World.store w).

Definition pending_of (w : World.t) : option PendingClarification :=
  Signals.pendingClarification (World.store w).

(** A whole turn: the query, the streamed chunks, the completion. *)
Definition turn (text : string) (includeReasoning : bool)
  (ps : list TokenPayload) (p : ResponseCompletePayload) : list Event :=
  ev_sendQuery text includeReasoning
  :: token_frames ps ++ [ev_frame (msg_response_complete p)].

(** An oracle that never repeats an id: the n-th id is n letters long. *)
Fixpoint unary_uuid (n : nat) : string :=
  match n with
  | O => ""
  | S k => "u" +:+ unary_uuid k
  end.

Definition ids_of (w : World.t) : list string := map id (messages_of w).

(** ** SessionService (session.service.ts)

    The store updates that the service attaches with [tap] to the answers
    of its HTTP calls; the calls themselves are outside this layer. *)

Record SessionCreateResponse : Type := {
  scr_session_id : string;
  scr_created_at : string
}.

Record SessionListResponse : Type := {
  slr_sessions : list SessionListItem;
  slr_count : Z
}.

Module SessionService.

(** [createSession]: [tap((response) => this.store.addSession({...}))] *)
Definition createSession_tap (response : SessionCreateResponse) : M unit :=
  SessionStore.addSession
    {| session_id := scr_session_id response;
       created_at := scr_created_at response;
       updated_at := None;
       has_context := false;
       object_count := 0 |}.

(** [listSessions]: [tap((response) => this.store.setSessions(...))] *)
Definition listSessions_tap (response : SessionListResponse) : M unit :=
  SessionStore.setSessions (slr_sessions response).

(** [deleteSession]: [tap(() => this.store.removeSession(sessionId))] *)
Definition deleteSession_tap (sessionId : string) : M unit :=
  SessionStore.removeSession sessionId.

End SessionService.

(** ** ChatPanelComponent *)

Module ChatPanelComponent.

Definition canSend (s : Signals.t) : bool :=
  bool_decide (Signals.wsStatus s = connected)
  && negb (Signals.isAgentThinking s)
  && negb (match Signals.pendingClarification s with
           | Some _ => true
           | None => false
           end).

(** [lastMessage.suggestedFollowups || []]: an array is truthy, so only a
    missing property gives the empty list. *)
Definition lastMessageFollowups (s : Signals.t) : list string :=
  let messages := Signals.messages s in
  if (Z.of_nat (length messages) =? 0) then []
  else
    match at_index messages (Z.of_nat (length messages) - 1) with
    | Some lastMessage =>
        if bool_decide (role lastMessage <> assistant) then []
        else match suggestedFollowups lastMessage with
             | Some l => l
             | None => []
             end
    | None => []
    end.

(** [sendMessage(text)] calls [sendQuery(text)]: [includeReasoning] takes
    its default.  (The scroll flag it also sets is view state.) *)
Definition sendMessage (text : string) : M unit :=
  WebSocketService.sendQuery text true.

Definition handleClarificationResponse (questionId value : string)
  (text : option string) : M unit :=
  WebSocketService.sendClarificationResponse questionId value text.

End ChatPanelComponent.

(** ** ChatShellComponent

    The shell's state is the world and the session ids for which it has
    asked [SessionService.getContext], oldest first. *)

Module ChatShellComponent.

Record t : Type := {
  world : World.t;
  contextRequests : list string
}.

Definition call (m : M unit) (sh : t) : t :=
  {| world := exec m (world sh); contextRequests := contextRequests sh |}.


Definition loadSessionContext_next (objects : list DrawingObject)
  (metadata : ContextMetadata) (sh : t) : t :=
  call (SessionStore.setDrawingContext objects metadata) sh.

Definition loadSessionContext_error (sh : t) : t :=
  call SessionStore.clearDrawingState sh.


Definition ngOnDestroy (sh : t) : t := call WebSocketService.disconnect sh.

End ChatShellComponent.

(** ** AuthService.isTokenExpired

    [exp] is the NumericDate of the token, a whole number of seconds.
    [new Date(v)] holds the time value [v] when |v| <= 8.64e15 and is an
    invalid date otherwise, whose [getTime()] is NaN; a comparison with NaN
    is false. *)

Record JwtPayload : Type := {
  jwt_sub : string;
  jwt_email : option string;
  jwt_exp : option Z;
  jwt_type : option string
}.

Definition timeClip (v : Z) : option Z :=
  if Z.abs v <=? 8640000000000000 then Some v else None.

(** [new Date().getTime()] *)
Definition nowMillis : M Z :=
  src <- browser_get Browser.clockSource ;;
  i <- browser_get Browser.clockCursor ;;
  browser_set Browser.set_clockCursor (S i) ;;
  ret (src i).

Module AuthService.

Definition isTokenExpired (payload : JwtPayload) : M bool :=
  match jwt_exp payload with
  | None => ret true
  | Some exp =>
      if exp =? 0 then ret true
      else
        let expirationDate := timeClip (exp * 1000) in
        now <- nowMillis ;;
        match expirationDate with
        | Some t => ret (t - now <? 60000)
        | None => ret false
        end
  end.

End AuthService.

Definition sample_item (i : string) : SessionListItem :=
  {| session_id := i; created_at := "2025-01-01T00:00:00Z";
     updated_at := None; has_context := false; object_count := 0 |}.

(** Two sessions are listed and the second is the current one. *)
Definition two_sessions : World.t :=
  run [ev_store (op_setSessions [sample_item "s1"; sample_item "s2"]);
       ev_store (op_setCurrentSession (Some "s2"))]
      turn_streaming.


Definition sample_followups : ResponseCompletePayload :=
  {| message_id := "m1"; final_answer := "Yes, within limits";
     rc_confidence := medium; query_type := "compliance_check";
     rc_sources := []; rc_calculations := []; rc_assumptions := [];
     suggested_followups :=
       ["How far may it extend?"; "Do I need prior approval?"] |}.

(** A token that expires 50 s after the first clock reading of
    [sample_world]. *)
Definition sample_jwt : JwtPayload :=
  {| jwt_sub := "user-1"; jwt_email := Some "a@example.org";
     jwt_exp := Some 1700000050; jwt_type := Some "access" |}.

(** ** ReasoningStepsComponent *)

Module ReasoningStepsComponent.

Definition completedSteps (steps : list ReasoningStep) : Z :=
  Z.of_nat (length (filter (fun s => status s = completed) steps)).

End ReasoningStepsComponent.

(** 1 for a completed step, 0 otherwise. *)
Definition as_completed (s : ReasoningStep) : Z :=
  if bool_decide (status s = completed) then 1 else 0.

(** The handshake of a session: [connect], the socket opens, the server
    confirms. *)
Definition handshake (sessionId token : string) (p : ConnectedPayload)
  : list Event :=
  [ev_connect sessionId token; ev_open; ev_frame (msg_connected p)].

(** * Proofs *)

(** ** Symbolic execution of a method body *)

Ltac unfold_monad :=
  unfold exec, eval, when, skip, emit, timer, setInterval, clearInterval,
    randomUUID, newDate, signal_get, signal_set, signal_update, field_get,
    field_set, browser_get, browser_set, bind, ret in *.

Ltac unfold_store :=
  unfold store_call, SessionStore.clearAuth, SessionStore.removeSession,
    SessionStore.setCurrentSession, SessionStore.clearChatState,
    SessionStore.clearDrawingState, SessionStore.setSessions,
    SessionStore.addSession, SessionStore.setConnectionStatus,
    SessionStore.setDrawingContext, SessionStore.updateContextVersion,
    SessionStore.addUserMessage, SessionStore.startAssistantMessage,
    SessionStore.appendToStreamingContent,
    SessionStore.finalizeAssistantMessage, SessionStore.addReasoningStep,
    SessionStore.setPendingClarification, SessionStore.setAuthenticated in *.

Ltac unfold_service :=
  unfold step, WebSocketService.ngOnDestroy, WebSocketService.handleMessage,
    WebSocketService.handleError, WebSocketService.handleResponseComplete,
    WebSocketService.handleContextUpdated, WebSocketService.handleCalculation,
    WebSocketService.handleClarificationRequest,
    WebSocketService.handleTokens, WebSocketService.handleToken,
    WebSocketService.handleReasoningStep, WebSocketService.handleConnected,
    WebSocketService.sendCancel, WebSocketService.sendClarificationResponse,
    WebSocketService.sendQuery, WebSocketService.catchError,
    WebSocketService.closeObserver, WebSocketService.openObserver,
    WebSocketService.handleDisconnect, WebSocketService.retryCallback,
    WebSocketService.connect, WebSocketService.disconnect,
    WebSocketService.startPingInterval, WebSocketService.pingCallback,
    WebSocketService.stopPingInterval in *.

(** Splits on a branch of the body: the scrutinee of an innermost match. *)
Ltac branch :=
  match goal with
  | |- context [match ?x with _ => _ end] =>
      lazymatch x with
      | context [match _ with _ => _ end] => fail
      | _ => destruct x eqn:?
      end
  end.

(** Unfolds the methods, then follows every path through the body. *)
Ltac symex :=
  unfold_service; unfold_store; unfold_monad; repeat (cbn; branch); cbn.

(** The same, rewriting with the known facts [rw] before each split. *)
Ltac symex_with rw :=
  unfold_service; unfold_store; unfold_monad;
  repeat (cbn; first [progress rw | branch]); cbn.

(** ** Strings and lists *)

Lemma append_nil_r (s : string) : s +:+ "" = s.
Proof.
  induction s as [|c s IH]; [reflexivity |].
  change (String c (s +:+ "") = String c s). f_equal. exact IH.
Qed.

Lemma append_assoc (a b c : string) : (a +:+ b) +:+ c = a +:+ (b +:+ c).
Proof.
  induction a as [|x a IH]; [reflexivity |].
  change (String x ((a +:+ b) +:+ c) = String x (a +:+ (b +:+ c))).
  f_equal. exact IH.
Qed.

Lemma truthy_Some (s : string) : s <> "" -> truthy (Some s) = true.
Proof.
  intros H. cbn. destruct (String.eqb_spec s ""); [contradiction | reflexivity].
Qed.

Lemma run_app (es1 es2 : list Event) (w : World.t) :
  run (es1 ++ es2) w = run es2 (run es1 w).
Proof. unfold run. apply foldl_app. Qed.

Lemma run_cons (e : Event) (es : list Event) (w : World.t) :
  run (e :: es) w = run es (exec (step e) w).
Proof. reflexivity. Qed.

Lemma run_snoc (es : list Event) (e : Event) (w : World.t) :
  run (es ++ [e]) w = exec (step e) (run es w).
Proof. rewrite run_app. reflexivity. Qed.

Lemma timer_delays_app (t1 t2 : list Effect) :
  timer_delays (t1 ++ t2) = timer_delays t1 ++ timer_delays t2.
Proof. apply omap_app. Qed.

(** ** Reconnection policy *)














(** ** Streaming accumulator *)

Lemma join_empty (cs : list string) : join "" cs = concatenation cs.
Proof.
  induction cs as [|c cs IH]; [reflexivity|].
  destruct cs as [|c' cs].
  - cbn. symmetry. apply append_nil_r.
  - change (join "" (c :: c' :: cs)) with (c +:+ "" +:+ join "" (c' :: cs)).
    rewrite IH. reflexivity.
Qed.

Lemma token_frame_accumulator (p : TokenPayload) (w : World.t) :
  accumulator (exec (step (ev_frame (msg_token p))) w) =
  accumulator w +:+ chunk p.
Proof. reflexivity. Qed.

Lemma token_frame_mutations (p : TokenPayload) (w : World.t) :
  mutations_of (exec (step (ev_frame (msg_token p))) w) = S (mutations_of w).
Proof. reflexivity. Qed.

Lemma token_frames_accumulator (ps : list TokenPayload) (w : World.t) :
  accumulator (run (token_frames ps) w) =
  accumulator w +:+ concatenation (map chunk ps).
Proof.
  revert w. induction ps as [|p ps IH]; intros w.
  - cbn. symmetry. apply append_nil_r.
  - unfold token_frames. cbn [map]. rewrite run_cons.
    fold (token_frames ps). rewrite IH, token_frame_accumulator.
    apply append_assoc.
Qed.

Lemma token_frames_mutations (ps : list TokenPayload) (w : World.t) :
  mutations_of (run (token_frames ps) w) = (mutations_of w + length ps)%nat.
Proof.
  revert w. induction ps as [|p ps IH]; intros w.
  - cbn. lia.
  - unfold token_frames. cbn [map]. rewrite run_cons.
    fold (token_frames ps). rewrite IH, token_frame_mutations. cbn. lia.
Qed.

(** C2.  Started from an empty streaming accumulator, the [token] envelopes
    with chunks c1..cn, dispatched in order, leave the accumulator equal to
    the concatenation c1 + ... + cn. *)
Theorem C2_token_accumulation (ps : list TokenPayload) (w : World.t) :
  accumulator w = "" ->
  accumulator (run (token_frames ps) w) = concatenation (map chunk ps).
Proof.
  intros Hw. rewrite token_frames_accumulator, Hw. reflexivity.
Qed.

Lemma C2_token_accumulation_witness :
  accumulator sample_world = ""
  /\ accumulator (run (token_frames sample_tokens) sample_world)
     = "Hello, world".
Proof.
  split; [reflexivity|].
  exact (C2_token_accumulation sample_tokens sample_world eq_refl).
Defined.

(** C3.  One [tokens] envelope carrying a chunk list leaves the accumulator
    that the same chunks leave when dispatched one at a time as [token]
    envelopes, whatever the accumulator held before; the [tokens] handler
    writes a signal once, where the one-at-a-time delivery writes once per
    chunk. *)
Theorem C3_tokens_batch (tps : list TokenPayload) (node : string)
  (w : World.t) :
  let payload := {| chunks := map chunk tps; tsp_node := node |} in
  let batched := exec (step (ev_frame (msg_tokens payload))) w in
  let one_by_one := run (token_frames tps) w in
  accumulator batched = accumulator one_by_one
  /\ accumulator batched = accumulator w +:+ concatenation (map chunk tps)
  /\ mutations_of batched = S (mutations_of w)
  /\ mutations_of one_by_one = (mutations_of w + length tps)%nat.
Proof.
  cbn zeta. rewrite token_frames_accumulator, token_frames_mutations.
  assert (H : accumulator
                (exec (step (ev_frame
                   (msg_tokens {| chunks := map chunk tps; tsp_node := node |})))
                   w)
              = accumulator w +:+ join "" (map chunk tps)) by reflexivity.
  rewrite H, join_empty. repeat split.
Qed.

(** The instance of the specification: chunks ["ab"; "cd"]. *)
Example tokens_ab_cd (w : World.t) (node n1 n2 : string) (i1 i2 : Z) :
  accumulator
    (exec (step (ev_frame
       (msg_tokens {| chunks := ["ab"; "cd"]; tsp_node := node |}))) w)
  = accumulator
      (run [ev_frame (msg_token
              {| chunk := "ab"; tp_node := n1; token_index := i1 |});
            ev_frame (msg_token
              {| chunk := "cd"; tp_node := n2; token_index := i2 |})] w).
Proof.
  cbn. unfold accumulator. cbn. rewrite append_assoc. reflexivity.
Qed.

(** ** Finalizing the assistant message *)

Lemma at_index_last {A : Type} (l : list A) :
  at_index l (Z.of_nat (length l) - 1) = last l.
Proof.
  unfold at_index. rewrite last_lookup. destruct l as [|x l]; [reflexivity|].
  cbn [length]. destruct (Z.ltb_spec (Z.of_nat (S (length l)) - 1) 0); [lia|].
  f_equal. lia.
Qed.

Lemma finalize_in_unmatched (messageId c : string) (md : FinalizeMetadata)
  (l : list ChatMessage) :
  Forall (fun m => id m <> messageId) l -> finalize_in messageId c md l = l.
Proof.
  induction 1 as [|m l Hm _ IH]; [reflexivity|].
  unfold finalize_in in *. cbn [map]. rewrite IH.
  rewrite bool_decide_eq_false_2 by assumption. reflexivity.
Qed.

Lemma finalize_in_last (messageId c : string) (md : FinalizeMetadata)
  (l : list ChatMessage) (m : ChatMessage) :
  last l = Some m -> id m = messageId ->
  last (finalize_in messageId c md l) = Some (finalized c md m).
Proof.
  intros Hl Hid. unfold finalize_in.
  change (last ((fun msg => if bool_decide (id msg = messageId)
                            then finalized c md msg else msg) <$> l)
          = Some (finalized c md m)).
  rewrite fmap_last, Hl. cbn.
  rewrite bool_decide_eq_true_2 by assumption. reflexivity.
Qed.

Lemma finalizeAssistantMessage_spec (messageId c : string)
  (md : FinalizeMetadata) (w : World.t) :
  let w' := exec (SessionStore.finalizeAssistantMessage messageId c md) w in
  messages_of w' = finalize_in messageId c md (messages_of w)
  /\ Signals.isAgentThinking (World.store w') = false
  /\ accumulator w' = ""
  /\ World.service w' = World.service w
  /\ World.browser w' = World.browser w.
Proof. repeat split. Qed.

(** C10.  When [messageId] matches no message, [finalizeAssistantMessage]
    leaves the messages as they are, and still clears the thinking flag and
    empties the streaming accumulator. *)
Theorem C10_finalize_unknown_id (w : World.t) (messageId finalContent : string)
  (metadata : FinalizeMetadata) :
  Forall (fun m => id m <> messageId) (messages_of w) ->
  let w' :=
    exec (SessionStore.finalizeAssistantMessage messageId finalContent
            metadata) w in
  messages_of w' = messages_of w
  /\ Signals.isAgentThinking (World.store w') = false
  /\ Signals.streamingContent (World.store w') = "".
Proof.
  intros H.
  destruct (finalizeAssistantMessage_spec messageId finalContent metadata w)
    as (A1 & A2 & A3 & _).
  cbn zeta. rewrite A1, finalize_in_unmatched by exact H. auto.
Qed.

Lemma C10_finalize_unknown_id_witness :
  Forall (fun m => id m <> "no-such-id") (messages_of turn_streaming)
  /\ length (messages_of turn_streaming) = 2%nat
  /\ Signals.isAgentThinking (World.store turn_streaming) = true
  /\ Signals.streamingContent (World.store turn_streaming) = "partial"
  /\ messages_of
       (exec (SessionStore.finalizeAssistantMessage "no-such-id" "text"
                no_metadata) turn_streaming)
     = messages_of turn_streaming
  /\ Signals.isAgentThinking
       (World.store
          (exec (SessionStore.finalizeAssistantMessage "no-such-id" "text"
                   no_metadata) turn_streaming))
     = false
  /\ Signals.streamingContent
       (World.store
          (exec (SessionStore.finalizeAssistantMessage "no-such-id" "text"
                   no_metadata) turn_streaming))
     = "".
Proof.
  assert (H : Forall (fun m => id m <> "no-such-id")
                (messages_of turn_streaming)).
  { vm_compute. repeat constructor; discriminate. }
  split; [exact H|]. split; [reflexivity|]. split; [reflexivity|].
  split; [reflexivity|].
  exact (C10_finalize_unknown_id turn_streaming "no-such-id" "text"
           no_metadata H).
Defined.

(** ** The send methods *)



(** ** response_complete *)

Lemma handleMessage_response_complete (p : ResponseCompletePayload)
  (w : World.t) :
  let w' := exec (step (ev_frame (msg_response_complete p))) w in
  let w0 := exec (emit (fx_broadcast (msg_response_complete p))) w in
  w' = match last (messages_of w) with
       | Some m =>
           if bool_decide (role m = assistant)
           then exec (SessionStore.finalizeAssistantMessage (id m)
                        (final_answer p) (WebSocketService.metadata_of p)) w0
           else w0
       | None => w0
       end.
Proof.
  unfold step, WebSocketService.handleMessage.
  unfold WebSocketService.handleResponseComplete, messages_of.
  unfold exec, bind, signal_get, emit, browser_get, browser_set, skip, ret.
  cbn. rewrite at_index_last.
  destruct (last (Signals.messages (World.store w))) as [m|]; [|reflexivity].
  destruct (bool_decide (role m = assistant)); reflexivity.
Qed.

(** C4 (as amended).  [response_complete] finalizes the most recent message
    whenever it is an assistant message, streaming or not: the messages
    carrying its id get the final content, [isStreaming = false] and the six
    metadata fields, and the thinking flag and the accumulator are cleared.
    When there is no message or the most recent one is a user message, the
    handler leaves every signal and every field as it was. *)
Theorem C4_response_complete (p : ResponseCompletePayload) (w : World.t) :
  let w' := exec (step (ev_frame (msg_response_complete p))) w in
  let final := finalized (final_answer p) (WebSocketService.metadata_of p) in
  (forall m,
      last (messages_of w) = Some m -> role m = assistant ->
      messages_of w'
      = map (fun x => if bool_decide (id x = id m) then final x else x)
          (messages_of w)
      /\ last (messages_of w') = Some (final m)
      /\ Signals.isAgentThinking (World.store w') = false
      /\ accumulator w' = "")
  /\ (forall m,
        id (final m) = id m
        /\ role (final m) = role m
        /\ timestamp (final m) = timestamp m
        /\ content (final m) = final_answer p
        /\ isStreaming (final m) = Some false
        /\ queryType (final m) = Some (query_type p)
        /\ confidence (final m) = Some (rc_confidence p)
        /\ sources (final m) = Some (rc_sources p)
        /\ calculations (final m) = Some (rc_calculations p)
        /\ assumptions (final m) = Some (rc_assumptions p)
        /\ suggestedFollowups (final m) = Some (suggested_followups p))
  /\ (forall m,
        last (messages_of w) = Some m -> role m = user ->
        World.store w' = World.store w /\ World.service w' = World.service w)
  /\ (last (messages_of w) = None ->
      World.store w' = World.store w /\ World.service w' = World.service w).
Proof.
  cbn zeta. rewrite handleMessage_response_complete.
  split; [|split; [|split]].
  - intros m Hl Hr. rewrite Hl, bool_decide_eq_true_2 by exact Hr.
    split; [reflexivity|]. split; [|split; reflexivity].
    apply (finalize_in_last (id m)); [exact Hl | reflexivity].
  - intros m. repeat split.
  - intros m Hl Hr. rewrite Hl, bool_decide_eq_false_2; [split; reflexivity|].
    rewrite Hr. discriminate.
  - intros Hl. rewrite Hl. split; reflexivity.
Qed.

Lemma C4_response_complete_witness :
  last (messages_of turn_streaming) = Some streaming_placeholder
  /\ role streaming_placeholder = assistant
  /\ last (messages_of
             (exec (step (ev_frame
                      (msg_response_complete (sample_answer "final text"))))
                turn_streaming))
     = Some (finalized "final text"
               (WebSocketService.metadata_of (sample_answer "final text"))
               streaming_placeholder)
  /\ accumulator
       (exec (step (ev_frame
                (msg_response_complete (sample_answer "final text"))))
          turn_streaming)
     = "".
Proof.
  assert (Hl : last (messages_of turn_streaming) = Some streaming_placeholder)
    by reflexivity.
  assert (Hr : role streaming_placeholder = assistant) by reflexivity.
  destruct (C4_response_complete (sample_answer "final text") turn_streaming)
    as (P & _).
  destruct (P streaming_placeholder Hl Hr) as (_ & Q2 & _ & Q4).
  split; [exact Hl|]. split; [exact Hr|]. split; [exact Q2 | exact Q4].
Defined.

(** The claim as first stated fails: the most recent message of
    [turn_completed] is an assistant message that is no longer streaming, and
    a further [response_complete] rewrites it. *)
Lemma C4_counterexample :
  role <$> last (messages_of turn_completed) = Some assistant
  /\ isStreaming <$> last (messages_of turn_completed) = Some (Some false)
  /\ content <$> last (messages_of turn_completed) = Some "first answer"
  /\ messages_of
       (exec (step (ev_frame
                (msg_response_complete (sample_answer "second answer"))))
          turn_completed)
     <> messages_of turn_completed
  /\ content <$>
       last (messages_of
               (exec (step (ev_frame
                        (msg_response_complete
                           (sample_answer "second answer"))))
                  turn_completed))
     = Some "second answer".
Proof.
  repeat split; try reflexivity.
  intros H. vm_compute in H. discriminate H.
Qed.

(** ** error *)

(** C5 (what the code does).  A recoverable [error] envelope leaves the
    status [error] with the envelope's message in [wsError] and the service
    untouched.  A non-recoverable one ends disconnected: socket completed
    and dropped, keepalive cleared, session unbound, no reconnection timer
    armed and the attempt counter untouched - and [wsError] is null again,
    because [disconnect] ends with [setConnectionStatus('disconnected')],
    which overwrites the message stored two statements earlier. *)
Theorem C5_error_envelope (p : ErrorPayload) (w : World.t) :
  let w' := exec (step (ev_frame (msg_error p))) w in
  (recoverable p = true ->
   wsStatus_of w' = error
   /\ wsError_of w' = Some (ep_message p)
   /\ World.service w' = World.service w)
  /\ (recoverable p = false ->
      wsStatus_of w' = disconnected
      /\ wsError_of w' = None
      /\ socket_of w' = None
      /\ Fields.pingInterval (World.service w') = None
      /\ bound_session w' = None
      /\ attempts w' = attempts w
      /\ armed w' = armed w
      /\ timer_delays (trace_of w') = timer_delays (trace_of w)
      /\ opened (trace_of w') = opened (trace_of w)
      /\ (forall s, socket_of w = Some s -> fx_complete s ∈ trace_of w')).
Proof.
  unfold wsStatus_of, wsError_of, socket_of, bound_session, attempts, armed.
  unfold trace_of. cbn zeta. split; intros Hr.
  - symex_with ltac:(rewrite ?Hr). destruct w as [st [] br]; auto.
  - symex_with ltac:(rewrite ?Hr).
    all: unfold timer_delays, opened; rewrite ?omap_app; cbn.
    all: rewrite ?app_nil_r; repeat split; try reflexivity; try assumption.
    all: intros s' Hs'; try discriminate.
    all: injection Hs' as <-; apply elem_of_app; right.
    all: apply list_elem_of_singleton; reflexivity.
Qed.

Lemma C5_error_envelope_witness :
  recoverable fatal_error = false
  /\ wsStatus_of session_running = connected
  /\ wsStatus_of (exec (step (ev_frame (msg_error fatal_error)))
                    session_running) = disconnected
  /\ wsError_of (exec (step (ev_frame (msg_error fatal_error)))
                   session_running) = None.
Proof.
  assert (Hr : recoverable fatal_error = false) by reflexivity.
  destruct (C5_error_envelope fatal_error session_running) as (_ & P).
  destruct (P Hr) as (Q1 & Q2 & _).
  split; [exact Hr|]. split; [reflexivity|]. split; [exact Q1 | exact Q2].
Defined.

(** ** Reasoning trace *)

Lemma findIndex_spec {A : Type} (p : A -> bool) (l : list A) :
  (findIndex p l = -1 /\ Forall (fun x => p x = false) l)
  \/ (exists i x,
        findIndex p l = Z.of_nat i
        /\ l !! i = Some x /\ p x = true
        /\ Forall (fun y => p y = false) (take i l)).
Proof.
  induction l as [|a l IH].
  - left. split; [reflexivity | constructor].
  - cbn [findIndex]. destruct (p a) eqn:Ha.
    + right. exists 0%nat, a. repeat split; try assumption. constructor.
    + destruct IH as [[E F] | (i & x & E & Hi & Hx & F)]; rewrite E.
      * left. split; [reflexivity | constructor; assumption].
      * right. exists (S i), x.
        destruct (Z.ltb_spec (Z.of_nat i) 0); [lia|].
        repeat split; try assumption; [lia|].
        cbn [take]. constructor; assumption.
Qed.

Section Upsert.

Variable step : ReasoningStep.
Variable current : list ReasoningStep.

(** A new index: the step goes after all existing entries. *)
Lemma upsertStep_new :
  stepIndex step ∉ indices current ->
  SessionStore.upsertStep step current = current ++ [step].
Proof.
  intros Hnew. unfold SessionStore.upsertStep.
  destruct (findIndex_spec
              (fun s => bool_decide (stepIndex s = stepIndex step)) current)
    as [[E _] | (i & x & E & Hi & Hx & _)]; rewrite E.
  - reflexivity.
  - exfalso. apply Hnew. unfold indices.
    apply list_elem_of_fmap. exists x. split.
    + symmetry. exact (bool_decide_eq_true_1 _ Hx).
    + apply list_elem_of_lookup. exists i. exact Hi.
Qed.

(** A known index: the first entry carrying it is overwritten in place. *)
Lemma upsertStep_known :
  stepIndex step ∈ indices current ->
  exists i old,
    current !! i = Some old
    /\ stepIndex old = stepIndex step
    /\ Forall (fun y => stepIndex y <> stepIndex step) (take i current)
    /\ SessionStore.upsertStep step current = <[i := step]> current.
Proof.
  intros Hin. unfold SessionStore.upsertStep.
  destruct (findIndex_spec
              (fun s => bool_decide (stepIndex s = stepIndex step)) current)
    as [[E F] | (i & x & E & Hi & Hx & F)]; rewrite E.
  - exfalso. unfold indices in Hin.
    apply list_elem_of_fmap in Hin as (y & Hy & Hiny).
    rewrite Forall_forall in F. specialize (F y Hiny).
    cbn in F. apply bool_decide_eq_false_1 in F.
    apply F. symmetry. exact Hy.
  - exists i, x. destruct (Z.leb_spec 0 (Z.of_nat i)); [|lia].
    rewrite Nat2Z.id. repeat split; try assumption.
    + exact (bool_decide_eq_true_1 _ Hx).
    + eapply Forall_impl; [exact F|]. intros y Hy. cbn in Hy.
      exact (bool_decide_eq_false_1 _ Hy).
Qed.

Lemma upsertStep_indices :
  indices (SessionStore.upsertStep step current)
  = if decide (stepIndex step ∈ indices current)
    then indices current
    else indices current ++ [stepIndex step].
Proof.
  destruct (decide (stepIndex step ∈ indices current)) as [Hin|Hnew].
  - destruct (upsertStep_known Hin) as (i & old & Hi & Hk & _ & ->).
    unfold indices.
    change (stepIndex <$> <[i:=step]> current = stepIndex <$> current).
    rewrite list_fmap_insert. apply list_insert_id.
    rewrite list_lookup_fmap, Hi. cbn. f_equal. exact Hk.
  - rewrite (upsertStep_new Hnew). unfold indices. apply map_app.
Qed.

Lemma upsertStep_NoDup :
  NoDup (indices current) ->
  NoDup (indices (SessionStore.upsertStep step current)).
Proof.
  intros Hnd. rewrite upsertStep_indices.
  destruct (decide (stepIndex step ∈ indices current)) as [Hin|Hnew].
  - exact Hnd.
  - apply NoDup_app. split; [exact Hnd|]. split.
    + intros k Hk Hk'. apply list_elem_of_singleton in Hk'. subst k.
      exact (Hnew Hk).
    + apply NoDup_singleton.
Qed.

Lemma upsertStep_elem : step ∈ SessionStore.upsertStep step current.
Proof.
  destruct (decide (stepIndex step ∈ indices current)) as [Hin|Hnew].
  - destruct (upsertStep_known Hin) as (i & old & Hi & _ & _ & ->).
    apply list_elem_of_lookup. exists i.
    apply list_lookup_insert_eq. eapply lookup_lt_Some. exact Hi.
  - rewrite (upsertStep_new Hnew). apply elem_of_app. right.
    apply list_elem_of_singleton. reflexivity.
Qed.

Lemma upsertStep_other (x : ReasoningStep) :
  x ∈ current -> stepIndex x <> stepIndex step ->
  x ∈ SessionStore.upsertStep step current.
Proof.
  intros Hx Hne.
  destruct (decide (stepIndex step ∈ indices current)) as [Hin|Hnew].
  - destruct (upsertStep_known Hin) as (i & old & Hi & Hk & _ & ->).
    apply list_elem_of_lookup in Hx as (j & Hj).
    apply list_elem_of_lookup. exists j.
    rewrite list_lookup_insert_ne; [exact Hj|].
    intros ->. rewrite Hi in Hj. injection Hj as ->. contradiction.
  - rewrite (upsertStep_new Hnew). apply elem_of_app. left. exact Hx.
Qed.

End Upsert.

Lemma reasoning_frame_trace (p : ReasoningStepPayload) (w : World.t) :
  reasoning_trace (exec (step (ev_frame (msg_reasoning_step p))) w)
  = SessionStore.upsertStep (step_of p) (reasoning_trace w).
Proof. reflexivity. Qed.

Lemma reasoning_frames_trace (ps : list ReasoningStepPayload) (w : World.t) :
  reasoning_trace (run (reasoning_frames ps) w)
  = delivered ps (reasoning_trace w).
Proof.
  revert w. induction ps as [|p ps IH]; intros w; [reflexivity|].
  unfold reasoning_frames. cbn [map]. rewrite run_cons.
  fold (reasoning_frames ps). rewrite IH, reasoning_frame_trace. reflexivity.
Qed.

Lemma delivered_snoc (ps : list ReasoningStepPayload)
  (p : ReasoningStepPayload) (t0 : list ReasoningStep) :
  delivered (ps ++ [p]) t0
  = SessionStore.upsertStep (step_of p) (delivered ps t0).
Proof. unfold delivered. rewrite foldl_app. reflexivity. Qed.

Lemma delivered_NoDup (ps : list ReasoningStepPayload)
  (t0 : list ReasoningStep) :
  NoDup (indices t0) -> NoDup (indices (delivered ps t0)).
Proof.
  intros H0. induction ps as [|p ps IH] using rev_ind; [exact H0|].
  rewrite delivered_snoc. apply upsertStep_NoDup. exact IH.
Qed.

(** The entry of an index is the step delivered last for it. *)
Lemma delivered_last (ps : list ReasoningStepPayload)
  (p : ReasoningStepPayload) (t0 : list ReasoningStep) :
  last (filter (fun q => step_index q = step_index p) ps) = Some p ->
  step_of p ∈ delivered ps t0.
Proof.
  induction ps as [|q ps IH] using rev_ind; [discriminate|].
  rewrite filter_app, delivered_snoc.
  destruct (decide (step_index q = step_index p)) as [E|N].
  - rewrite filter_cons_True by exact E. rewrite filter_nil, last_snoc.
    intros [= ->]. apply upsertStep_elem.
  - rewrite filter_cons_False by exact N. rewrite filter_nil, app_nil_r.
    intros Hl. apply upsertStep_other; [exact (IH Hl)|].
    cbn. intros E. apply N. symmetry. exact E.
Qed.

Lemma filter_absent (k : Z) (t : list ReasoningStep) :
  k ∉ indices t -> filter (fun s => stepIndex s = k) t = [].
Proof.
  induction t as [|y t IH]; intros Hk; [reflexivity|].
  rewrite filter_cons_False.
  - apply IH. intros Hin. apply Hk. unfold indices. cbn [map].
    apply elem_of_cons. right. exact Hin.
  - intros E. apply Hk. unfold indices. cbn [map].
    apply elem_of_cons. left. symmetry. exact E.
Qed.

(** With one entry per index, an entry is the only one of its index. *)
Lemma only_entry (t : list ReasoningStep) (x : ReasoningStep) :
  NoDup (indices t) -> x ∈ t ->
  filter (fun s => stepIndex s = stepIndex x) t = [x].
Proof.
  induction t as [|y t IH]; intros Hnd Hx.
  - apply elem_of_nil in Hx. contradiction.
  - unfold indices in Hnd. cbn [map] in Hnd.
    apply NoDup_cons in Hnd as [Hy Hnd].
    apply elem_of_cons in Hx as [->|Hx].
    + rewrite filter_cons_True by reflexivity. f_equal.
      apply filter_absent. exact Hy.
    + rewrite filter_cons_False; [exact (IH Hnd Hx)|].
      intros E. apply Hy. rewrite E.
      apply list_elem_of_fmap. exists x. split; [reflexivity | exact Hx].
Qed.

Lemma step_reasoning_trace (e : Event) (w : World.t) :
  reasoning_trace (exec (step e) w) = reasoning_trace w
  \/ reasoning_trace (exec (step e) w) = []
  \/ exists s,
       reasoning_trace (exec (step e) w)
       = SessionStore.upsertStep s (reasoning_trace w).
Proof.
  unfold reasoning_trace.
  destruct e as [c| | | | | | | | | m | | | |];
    [destruct c | .. ]; try destruct m; symex; eauto.
Qed.

Lemma reachable_trace_NoDup (es : list Event) (w : World.t) :
  NoDup (indices (reasoning_trace w)) ->
  NoDup (indices (reasoning_trace (run es w))).
Proof.
  intros Hw. induction es as [|e es IH] using rev_ind; [exact Hw|].
  rewrite run_snoc.
  destruct (step_reasoning_trace e (run es w)) as [H|[H|[s H]]]; rewrite H.
  - exact IH.
  - constructor.
  - apply upsertStep_NoDup. exact IH.
Qed.

(** C6.  The reasoning trace is keyed by [stepIndex]: every reachable state
    has one entry per index.  After any sequence of [reasoning_step]
    deliveries into such a trace, the entry of a delivered index is the step
    delivered last for it (so index 2 delivered as [processing] and later as
    [completed] is one entry, [completed]).  A further delivery of a present
    index overwrites that entry where it stands: same length, same indices
    in the same order, every other position untouched.  A delivery of a new
    index is appended after all existing entries. *)
Theorem C6_reasoning_upsert (ps : list ReasoningStepPayload) (w : World.t) :
  (forall uuids clock token es,
      NoDup (indices
               (reasoning_trace (run es (initial_world uuids clock token)))))
  /\ (NoDup (indices (reasoning_trace w)) ->
      let t := reasoning_trace (run (reasoning_frames ps) w) in
      NoDup (indices t)
      /\ (forall p,
            last (filter (fun q => step_index q = step_index p) ps) = Some p ->
            filter (fun s => stepIndex s = step_index p) t = [step_of p])
      /\ (forall p,
            let t' :=
              reasoning_trace
                (exec (step (ev_frame (msg_reasoning_step p)))
                   (run (reasoning_frames ps) w)) in
            (step_index p ∈ indices t ->
             exists i old,
               t !! i = Some old
               /\ stepIndex old = step_index p
               /\ t' = <[i := step_of p]> t
               /\ t' !! i = Some (step_of p)
               /\ (forall j, j <> i -> t' !! j = t !! j)
               /\ length t' = length t
               /\ indices t' = indices t)
            /\ (step_index p ∉ indices t -> t' = t ++ [step_of p]))).
Proof.
  split.
  { intros uuids clock token es. apply reachable_trace_NoDup. constructor. }
  intros Hw. cbn zeta. rewrite reasoning_frames_trace.
  set (t0 := reasoning_trace w) in *.
  assert (Hnd : NoDup (indices (delivered ps t0))).
  { apply delivered_NoDup. exact Hw. }
  split; [exact Hnd|]. split.
  - intros p Hl.
    apply (only_entry (delivered ps t0) (step_of p) Hnd).
    apply delivered_last. exact Hl.
  - intros p. rewrite reasoning_frame_trace, reasoning_frames_trace.
    fold t0. split.
    + intros Hin.
      destruct (upsertStep_known (step_of p) (delivered ps t0) Hin)
        as (i & old & Hi & Hk & _ & E).
      exists i, old. rewrite E. repeat split; try assumption.
      * apply list_lookup_insert_eq. eapply lookup_lt_Some. exact Hi.
      * intros j Hj. apply list_lookup_insert_ne. congruence.
      * apply length_insert.
      * rewrite <- E, upsertStep_indices.
        destruct (decide (stepIndex (step_of p) ∈ indices (delivered ps t0)));
          [reflexivity | contradiction].
    + intros Hnew. apply upsertStep_new. exact Hnew.
Qed.

Lemma C6_reasoning_upsert_witness :
  NoDup (indices (reasoning_trace sample_world))
  /\ last (filter (fun q => step_index q = 2) sample_deliveries)
     = Some (sample_step 2 completed)
  /\ filter (fun s => stepIndex s = 2)
       (reasoning_trace (run (reasoning_frames sample_deliveries) sample_world))
     = [step_of (sample_step 2 completed)]
  /\ indices
       (reasoning_trace (run (reasoning_frames sample_deliveries) sample_world))
     = [1; 2; 3].
Proof.
  assert (H0 : NoDup (indices (reasoning_trace sample_world)))
    by constructor.
  assert (Hl : last (filter (fun q => step_index q = step_index
                                                    (sample_step 2 completed))
                       sample_deliveries)
               = Some (sample_step 2 completed)) by reflexivity.
  destruct (C6_reasoning_upsert sample_deliveries sample_world) as (_ & C).
  destruct (C H0) as (_ & P & _).
  split; [exact H0|]. split; [exact Hl|].
  split; [exact (P (sample_step 2 completed) Hl) | reflexivity].
Defined.

(** ** Streaming messages *)

Lemma streaming_count_app (l1 l2 : list ChatMessage) :
  streaming_count (l1 ++ l2) = (streaming_count l1 + streaming_count l2)%nat.
Proof. unfold streaming_count. rewrite filter_app. apply length_app. Qed.

Lemma streaming_count_finalize (messageId c : string) (md : FinalizeMetadata)
  (l : list ChatMessage) :
  (streaming_count (finalize_in messageId c md l) <= streaming_count l)%nat.
Proof.
  unfold streaming_count, finalize_in.
  induction l as [|m l IH]; [reflexivity|]. cbn [map].
  destruct (bool_decide (id m = messageId)).
  - rewrite filter_cons_False by (cbn; discriminate).
    rewrite filter_cons. destruct (decide (is_streaming m = true)); cbn; lia.
  - rewrite !filter_cons.
    destruct (decide (is_streaming m = true)); cbn; lia.
Qed.

(** What an event does to the messages: it appends (at most one streaming
    message, and only when it starts a turn), or empties the list, or
    finalizes the messages of one id. *)
Lemma step_messages (e : Event) (w : World.t) :
  (exists extra,
      messages_of (exec (step e) w) = messages_of w ++ extra
      /\ (streaming_count extra <= if starts_turn e w then 1 else 0)%nat)
  \/ messages_of (exec (step e) w) = []
  \/ (exists messageId c md,
        messages_of (exec (step e) w)
        = finalize_in messageId c md (messages_of w)).
Proof.
  unfold messages_of, starts_turn, socket_of, wsStatus_of.
  destruct e as [c| | | | | | | | | m | | | |];
    [destruct c | .. ]; try destruct m; symex.
  all: first
    [ right; left; reflexivity
    | left; exists []; rewrite app_nil_r; split; [reflexivity | cbn; lia]
    | left; eexists; split; [reflexivity | vm_compute; lia]
    | left; eexists; split; [symmetry; apply app_assoc | vm_compute; lia]
    | right; right; unfold finalize_in; do 3 eexists; reflexivity ].
Qed.

Lemma step_streaming_count (e : Event) (w : World.t) :
  (streaming_count (messages_of (exec (step e) w))
   <= streaming_count (messages_of w) + if starts_turn e w then 1 else 0)%nat.
Proof.
  destruct (step_messages e w) as [(extra & -> & H) | [-> | (i & c & md & ->)]].
  - rewrite streaming_count_app. lia.
  - cbn. lia.
  - pose proof (streaming_count_finalize i c md (messages_of w)). lia.
Qed.

Lemma disciplined_run (es : list Event) (w : World.t) :
  (streaming_count (messages_of w) <= 1)%nat ->
  disciplined es w ->
  (streaming_count (messages_of (run es w)) <= 1)%nat.
Proof.
  revert w. induction es as [|e es IH]; intros w Hw Hd; [exact Hw|].
  destruct Hd as [Hstart Hd]. rewrite run_cons. apply IH; [|exact Hd].
  pose proof (step_streaming_count e w) as Hs.
  destruct (starts_turn e w).
  - rewrite (Hstart eq_refl) in Hs. exact Hs.
  - lia.
Qed.

(** C7 (as amended).  No event raises the number of streaming messages,
    except an event that starts a turn, which raises it by at most one; so
    at most one message is streaming in every state reached from start-up
    by a run that starts a turn only while no message is streaming. *)
Theorem C7_single_streaming :
  (forall e w,
      (streaming_count (messages_of (exec (step e) w))
       <= streaming_count (messages_of w)
          + if starts_turn e w then 1 else 0)%nat)
  /\ (forall uuids clock token es,
        disciplined es (initial_world uuids clock token) ->
        (streaming_count
           (messages_of (run es (initial_world uuids clock token))) <= 1)%nat).
Proof.
  split; [exact step_streaming_count|].
  intros uuids clock token es Hd. apply disciplined_run; [|exact Hd].
  cbn. lia.
Qed.

Lemma C7_single_streaming_witness :
  disciplined two_turns sample_world
  /\ length (messages_of (run two_turns sample_world)) = 4%nat
  /\ (streaming_count (messages_of (run two_turns sample_world)) <= 1)%nat.
Proof.
  assert (Hd : disciplined two_turns sample_world).
  { vm_compute. repeat split; intros H; try reflexivity; discriminate H. }
  split; [exact Hd|]. split; [reflexivity|].
  exact (proj2 C7_single_streaming sample_uuids sample_clock (Some "tok")
           two_turns Hd).
Defined.

(** The claim as first stated fails on a run the chat panel allows: the
    query is sent while [canSendQuery] holds, the server asks for a
    clarification, and the answer starts a second placeholder while the
    first is still streaming. *)
Lemma C7_counterexample :
  SessionStore.canSendQuery (World.store (run session_up sample_world)) = true
  /\ streaming_count (messages_of (run clarified_turn sample_world)) = 2%nat
  /\ ~ (streaming_count (messages_of (run clarified_turn sample_world))
        <= 1)%nat.
Proof.
  split; [reflexivity|]. split; [reflexivity|].
  vm_compute. lia.
Qed.

(** ** disconnect and the pending timers *)

Lemma sent_app (t1 t2 : list Effect) : sent (t1 ++ t2) = sent t1 ++ sent t2.
Proof. apply omap_app. Qed.

Lemma opened_app (t1 t2 : list Effect) :
  opened (t1 ++ t2) = opened t1 ++ opened t2.
Proof. apply omap_app. Qed.

Lemma disconnect_unbinds (w : World.t) :
  let w' := exec WebSocketService.disconnect w in
  unbound w'
  /\ Fields.pingInterval (World.service w') = None
  /\ wsStatus_of w' = disconnected
  /\ armed w' = armed w.
Proof.
  unfold unbound, socket_of, bound_session, wsStatus_of, armed.
  symex; auto.
Qed.

(** While nothing is bound, an event other than [connect] opens no socket
    and hands no frame to one, and leaves everything unbound. *)
Lemma unbound_step (e : Event) (w : World.t) :
  is_connect e = false -> unbound w ->
  let w' := exec (step e) w in
  unbound w'
  /\ opened (trace_of w') = opened (trace_of w)
  /\ sent (trace_of w') = sent (trace_of w).
Proof.
  unfold unbound, socket_of, bound_session, trace_of.
  intros He [Hs Hb].
  destruct e as [c| | | | | | | | | m | | | |];
    [destruct c | .. ]; try destruct m; try discriminate He.
  all: symex_with ltac:(rewrite ?Hs, ?Hb).
  all: unfold opened, sent; rewrite ?omap_app; cbn; rewrite ?app_nil_r.
  all: auto.
Qed.

Lemma unbound_run (es : list Event) (w : World.t) :
  Forall (fun e => is_connect e = false) es -> unbound w ->
  unbound (run es w)
  /\ opened (trace_of (run es w)) = opened (trace_of w)
  /\ sent (trace_of (run es w)) = sent (trace_of w).
Proof.
  intros Hes. revert w. induction Hes as [|e es He _ IH]; intros w Hw.
  - auto.
  - rewrite run_cons.
    destruct (unbound_step e w He Hw) as (A1 & A2 & A3).
    destruct (IH _ A1) as (B1 & B2 & B3).
    rewrite B2, B3, A2, A3. auto.
Qed.

(** C8 (what the code does).  [disconnect] clears the keepalive interval
    outright; the reconnection timer stays armed and is only defused by the
    session check in its callback.  So after [disconnect], as long as no
    [connect] call is made, no event opens a socket or sends a frame, ping
    included.  But the check reads the session bound at fire time: in
    [switched_session] a [connect] to another session was made before the
    timer armed earlier fires, and the stale timer then completes the live
    socket and connects again, after which pings flow on the new socket. *)
Theorem C8_disconnect_and_pending_retry :
  (forall w es,
      Forall (fun e => is_connect e = false) es ->
      let w0 := exec WebSocketService.disconnect w in
      Fields.pingInterval (World.service w0) = None
      /\ armed w0 = armed w
      /\ opened (trace_of (run es w0)) = opened (trace_of w0)
      /\ sent (trace_of (run es w0)) = sent (trace_of w0))
  /\ (armed switched_session = [2000]
      /\ wsStatus_of switched_session = connected
      /\ socket_of switched_session = Some second_socket
      /\ opened (trace_of switched_session) = [("s1", "tok"); ("s2", "tok")]
      /\ opened (trace_of (exec (step (ev_retry_timer 0)) switched_session))
         = [("s1", "tok"); ("s2", "tok"); ("s2", "tok")]
      /\ fx_complete second_socket
         ∈ trace_of (exec (step (ev_retry_timer 0)) switched_session)
      /\ wsStatus_of (exec (step (ev_retry_timer 0)) switched_session)
         = connecting
      /\ sent (trace_of
                 (run [ev_retry_timer 0; ev_open; ev_ping_tick]
                    switched_session))
         = sent (trace_of switched_session) ++ [msg_ping]).
Proof.
  split.
  - intros w es Hes.
    destruct (disconnect_unbinds w) as (A1 & A2 & _ & A4).
    destruct (unbound_run es _ Hes A1) as (_ & B2 & B3).
    cbn zeta. auto.
  - repeat split; try reflexivity.
    vm_compute. repeat (first [apply list_elem_of_here | apply list_elem_of_further]).
Qed.

Lemma C8_disconnect_and_pending_retry_witness :
  Forall (fun e => is_connect e = false)
    [ev_retry_timer 0; ev_ping_tick; ev_open; ev_ping_tick]
  /\ armed dropped_then_disconnected = [2000]
  /\ opened (trace_of
               (run [ev_retry_timer 0; ev_ping_tick; ev_open; ev_ping_tick]
                  (exec WebSocketService.disconnect
                     dropped_then_disconnected)))
     = [("s1", "tok")]
  /\ sent (trace_of
             (run [ev_retry_timer 0; ev_ping_tick; ev_open; ev_ping_tick]
                (exec WebSocketService.disconnect
                   dropped_then_disconnected)))
     = [].
Proof.
  assert (H : Forall (fun e => is_connect e = false)
                [ev_retry_timer 0; ev_ping_tick; ev_open; ev_ping_tick]).
  { repeat constructor. }
  destruct (proj1 C8_disconnect_and_pending_retry dropped_then_disconnected
              _ H) as (_ & _ & P3 & P4).
  split; [exact H|]. split; [reflexivity|].
  split; [exact P3 | exact P4].
Defined.

(** * Further properties of the two classes *)

(** ** Timers and sockets are not leaked *)

Lemma filter_only {A : Type} `{EqDecision A} (x : A) :
  filter (fun y => y <> x) [x] = [].
Proof. rewrite filter_cons_False; [reflexivity|]. intros H. now apply H. Qed.

Lemma step_live_intervals (e : Event) (w : World.t) :
  live_intervals (trace_of w) = option_list (pingInterval_of w) ->
  live_intervals (trace_of (exec (step e) w))
  = option_list (pingInterval_of (exec (step e) w)).
Proof.
  unfold trace_of, pingInterval_of, live_intervals. intros Hinv.
  destruct e as [c| | | | | | | | | m | | | |];
    [destruct c | .. ]; try destruct m; symex.
  all: rewrite ?foldl_app; cbn [foldl track_interval]; rewrite ?Hinv.
  all: repeat match goal with
         | H : Fields.pingInterval _ = _ |- _ => rewrite ?H; clear H
         end.
  all: cbv [option_list option_rect]; cbn [app]; rewrite ?filter_only.
  all: try reflexivity; try assumption.
Qed.

Lemma step_live_sockets (e : Event) (w : World.t) :
  live_sockets (trace_of w) = option_list (socket_of w) ->
  live_sockets (trace_of (exec (step e) w))
  = option_list (socket_of (exec (step e) w)).
Proof.
  unfold trace_of, socket_of, live_sockets. intros Hinv.
  destruct e as [c| | | | | | | | | m | | | |];
    [destruct c | .. ]; try destruct m; symex.
  all: simplify_eq.
  all: rewrite ?foldl_app; cbn [foldl track_socket]; rewrite ?Hinv.
  all: repeat match goal with
         | H : Fields.socket _ = _ |- _ => rewrite ?H; clear H
         end.
  all: cbv [option_list option_rect]; cbn [app]; rewrite ?filter_only.
  all: try reflexivity; try assumption.
Qed.

(** X1.  In every state reachable from start-up the keepalive interval held
    in [pingInterval] is the only interval that was set and not cleared
    since, and the socket held in [socket$] is the only socket that was
    opened and not completed since: neither is ever leaked, and never is
    there more than one of each. *)
Theorem X1_no_leaked_timer_or_socket (uuids : nat -> string)
  (clock : nat -> Z) (token : option string) (es : list Event) :
  let w := run es (initial_world uuids clock token) in
  live_intervals (trace_of w) = option_list (pingInterval_of w)
  /\ live_sockets (trace_of w) = option_list (socket_of w).
Proof.
  cbn zeta. induction es as [|e es [IH1 IH2]] using rev_ind.
  - split; reflexivity.
  - rewrite run_snoc. split.
    + apply step_live_intervals. exact IH1.
    + apply step_live_sockets. exact IH2.
Qed.

(** ** connect, disconnect, close *)

(** X2.  [disconnect] is idempotent: called on a manager it has just
    disconnected, it emits no effect and leaves every field, the browser
    and every signal as they are. *)
Theorem X2_disconnect_idempotent (w : World.t) :
  let w1 := exec WebSocketService.disconnect w in
  let w2 := exec WebSocketService.disconnect w1 in
  World.service w2 = World.service w1
  /\ World.browser w2 = World.browser w1
  /\ signals_of w2 = signals_of w1
  /\ wsStatus_of w1 = disconnected
  /\ wsError_of w1 = None.
Proof.
  unfold signals_of, wsStatus_of, wsError_of. symex; try discriminate.
  all: repeat split; reflexivity.
Qed.

(** X3.  The attempt counter is reset when the socket opens, not when the
    [connected] envelope arrives: the envelope leaves the counter alone.
    So after an open, with a session bound, the next unclean close makes
    attempt 1 and arms 2000 ms whatever the counter was before. *)
Theorem X3_open_resets_backoff (w : World.t) :
  attempts (exec (step ev_open) w) = 0
  /\ (forall p, attempts (exec (step (ev_frame (msg_connected p))) w)
                = attempts w)
  /\ (truthy (bound_session w) = true ->
      let w' := run [ev_open; ev_close false] w in
      attempts w' = 1
      /\ armed w' = armed w ++ [2000]
      /\ timer_delays (trace_of w') = timer_delays (trace_of w) ++ [2000]).
Proof.
  unfold attempts, bound_session, armed, trace_of, run.
  split; [|split].
  - symex; reflexivity.
  - intros p. symex; reflexivity.
  - intros Hs. cbn [foldl].
    symex_with ltac:(rewrite ?Hs).
    all: unfold timer_delays; rewrite ?omap_app; cbn; rewrite ?app_nil_r.
    all: auto.
Qed.

Lemma X3_open_resets_backoff_witness :
  attempts backing_off = 1
  /\ truthy (bound_session backing_off) = true
  /\ armed (run [ev_open; ev_close false] backing_off) = [2000; 2000].
Proof.
  assert (H : truthy (bound_session backing_off) = true) by reflexivity.
  destruct (X3_open_resets_backoff backing_off) as (_ & _ & P).
  destruct (P H) as (_ & Q & _).
  split; [reflexivity|]. split; [exact H | exact Q].
Defined.

(** X4.  A clean close never starts the reconnection policy: the status
    becomes [disconnected] with no error, no timer is armed, the counter
    and the session binding stay, and the keepalive is cleared.  The socket
    handle stays too: a later [sendQuery] is dropped by the status check,
    while a later [sendCancel] is still handed to that handle. *)
Theorem X4_clean_close (w : World.t) :
  let w' := exec (step (ev_close true)) w in
  wsStatus_of w' = disconnected
  /\ wsError_of w' = None
  /\ armed w' = armed w
  /\ timer_delays (trace_of w') = timer_delays (trace_of w)
  /\ attempts w' = attempts w
  /\ bound_session w' = bound_session w
  /\ pingInterval_of w' = None
  /\ socket_of w' = socket_of w
  /\ (forall content includeReasoning,
        exec (WebSocketService.sendQuery content includeReasoning) w' = w')
  /\ (forall s, socket_of w = Some s ->
        sent (trace_of (exec WebSocketService.sendCancel w'))
        = sent (trace_of w) ++ [msg_cancel]).
Proof.
  unfold wsStatus_of, wsError_of, armed, trace_of, attempts, bound_session.
  unfold pingInterval_of, socket_of. cbn zeta.
  do 8 (split; [symex; unfold timer_delays; rewrite ?omap_app; cbn;
                rewrite ?app_nil_r; first [reflexivity | assumption]|]).
  split.
  - intros content includeReasoning. symex; try reflexivity.
    all: match goal with
         | H : bool_decide _ = true |- _ => vm_compute in H; discriminate H
         end.
  - intros s Hs. symex_with ltac:(rewrite ?Hs).
    all: unfold sent; rewrite ?omap_app; cbn; rewrite ?app_nil_r.
    all: reflexivity.
Qed.

Lemma X4_clean_close_witness :
  socket_of session_running = Some sample_socket
  /\ sent (trace_of
             (exec WebSocketService.sendCancel
                (exec (step (ev_close true)) session_running)))
     = [msg_cancel].
Proof.
  assert (H : socket_of session_running = Some sample_socket) by reflexivity.
  destruct (X4_clean_close session_running)
    as (_ & _ & _ & _ & _ & _ & _ & _ & _ & P).
  split; [exact H | exact (P sample_socket H)].
Defined.

(** X5.  An unclean close while no session is bound does not retry, even
    when no attempt has been made: no timer is armed, the counter stays,
    and the status becomes [error].  The close handler stores the
    exhaustion message; it is what remains when the stream is no longer
    subscribed at the close, while on a live stream the stream error that
    follows the close replaces it by [null]. *)
Theorem X5_unclean_close_unbound (live : bool) (w : World.t) :
  truthy (bound_session w) = false ->
  let closed := exec (step (ev_close false)) w in
  let w' := run (unclean_close live) w in
  armed w' = armed w
  /\ timer_delays (trace_of w') = timer_delays (trace_of w)
  /\ attempts w' = attempts w
  /\ wsStatus_of w' = error
  /\ wsError_of closed = Some exhausted_message
  /\ wsError_of w' = if live then None else Some exhausted_message.
Proof.
  unfold bound_session, armed, trace_of, attempts, wsStatus_of, wsError_of.
  unfold unclean_close, run.
  intros Hs. destruct live; cbn [foldl].
  all: symex_with ltac:(rewrite ?Hs, ?andb_false_r).
  all: unfold timer_delays; rewrite ?omap_app; cbn; rewrite ?app_nil_r.
  all: auto 10.
Qed.

Lemma X5_unclean_close_unbound_witness :
  truthy (bound_session unnamed_session) = false
  /\ attempts unnamed_session = 0
  /\ armed (run (unclean_close true) unnamed_session) = []
  /\ wsStatus_of (run (unclean_close true) unnamed_session) = error
  /\ wsError_of (run (unclean_close true) unnamed_session) = None.
Proof.
  assert (H : truthy (bound_session unnamed_session) = false) by reflexivity.
  destruct (X5_unclean_close_unbound true unnamed_session H)
    as (P1 & _ & _ & P4 & _ & P6).
  split; [exact H|]. split; [reflexivity|].
  split; [exact P1 | split; [exact P4 | exact P6]].
Defined.

(** ** The reconnection timer's callback *)

(** X6.  When the timer fires and [localStorage] holds no usable token
    (none, or the empty string), nothing connects: every signal and field
    and the trace are as before, the timer is spent, and no further timer
    is armed - the reconnection sequence ends without a status change. *)
Theorem X6_retry_without_token (w : World.t) (i : nat) (d : Z) :
  armed w !! i = Some d ->
  truthy (token_of w) = false ->
  let w' := exec (step (ev_retry_timer i)) w in
  World.store w' = World.store w
  /\ World.service w' = World.service w
  /\ trace_of w' = trace_of w
  /\ armed w' = delete i (armed w).
Proof.
  unfold armed, token_of, trace_of. intros Ha Ht.
  symex_with ltac:(rewrite ?Ha); cbn in Ht; try rewrite Ht in *;
    cbn; auto; try discriminate.
Qed.

Lemma X6_retry_without_token_witness :
  armed (exec (step (ev_access_token None)) backing_off) !! 0%nat = Some 2000
  /\ truthy (token_of (exec (step (ev_access_token None)) backing_off)) = false
  /\ armed (run [ev_access_token None; ev_retry_timer 0] backing_off) = []
  /\ opened (trace_of (run [ev_access_token None; ev_retry_timer 0]
                         backing_off))
     = [("s1", "tok")].
Proof.
  assert (Ha : armed (exec (step (ev_access_token None)) backing_off)
               !! 0%nat = Some 2000) by reflexivity.
  assert (Ht : truthy (token_of (exec (step (ev_access_token None))
                                   backing_off)) = false) by reflexivity.
  destruct (X6_retry_without_token _ 0%nat 2000 Ha Ht) as (_ & _ & _ & Q).
  split; [exact Ha|]. split; [exact Ht|]. split; [exact Q | reflexivity].
Defined.

(** X7.  The retry reads the credential when it fires: with a session
    bound, a timer that fires after the token was replaced opens the socket
    with the new token. *)
Theorem X7_retry_uses_current_token (w : World.t) (i : nat) (d : Z)
  (sid tok : string) :
  armed w !! i = Some d ->
  bound_session w = Some sid -> sid <> "" -> tok <> "" ->
  let w' := run [ev_access_token (Some tok); ev_retry_timer i] w in
  socket_of w' = Some {| sock_sessionId := sid; sock_token := tok |}
  /\ bound_session w' = Some sid
  /\ wsStatus_of w' = connecting
  /\ opened (trace_of w') = opened (trace_of w) ++ [(sid, tok)]
  /\ armed w' = delete i (armed w).
Proof.
  unfold armed, bound_session, socket_of, wsStatus_of, trace_of, run.
  intros Ha Hs Hsid Htok. apply String.eqb_neq in Hsid, Htok.
  cbn [foldl].
  symex_with ltac:(rewrite ?Ha, ?Hs, ?Hsid, ?Htok).
  all: unfold opened; rewrite ?omap_app; cbn; rewrite ?app_nil_r; auto.
Qed.

Lemma X7_retry_uses_current_token_witness :
  armed backing_off !! 0%nat = Some 2000
  /\ bound_session backing_off = Some "s1"
  /\ token_of backing_off = Some "tok"
  /\ opened (trace_of (run [ev_access_token (Some "fresh"); ev_retry_timer 0]
                         backing_off))
     = [("s1", "tok"); ("s1", "fresh")].
Proof.
  assert (Ha : armed backing_off !! 0%nat = Some 2000) by reflexivity.
  assert (Hs : bound_session backing_off = Some "s1") by reflexivity.
  assert (H1 : "s1" <> "") by discriminate.
  assert (H2 : "fresh" <> "") by discriminate.
  destruct (X7_retry_uses_current_token backing_off 0%nat 2000 "s1" "fresh"
              Ha Hs H1 H2) as (_ & _ & _ & Q & _).
  split; [exact Ha|]. split; [exact Hs|]. split; [reflexivity | exact Q].
Defined.

(** ** The dispatcher and the store, seen from outside *)

(** X8.  Whatever frame arrives, the dispatcher broadcasts it exactly once
    and never writes to the wire, opens a socket, arms or cancels a
    reconnection timer, or touches the attempt counter; a [calculation],
    [pong] or unlisted frame changes no signal and no field at all. *)
Theorem X8_dispatch_is_inward (m : ServerMessage) (w : World.t) :
  let w' := exec (step (ev_frame m)) w in
  broadcasts (trace_of w') = broadcasts (trace_of w) ++ [m]
  /\ sent (trace_of w') = sent (trace_of w)
  /\ opened (trace_of w') = opened (trace_of w)
  /\ timer_delays (trace_of w') = timer_delays (trace_of w)
  /\ armed w' = armed w
  /\ attempts w' = attempts w
  /\ (match m with
      | msg_calculation _ | msg_pong | msg_other _ =>
          World.store w' = World.store w /\ World.service w' = World.service w
      | _ => True
      end).
Proof.
  unfold trace_of, armed, attempts.
  destruct m; symex.
  all: unfold broadcasts, sent, opened, timer_delays; rewrite ?omap_app; cbn.
  all: rewrite ?app_nil_r; auto 10.
Qed.

(** X9.  A store operation stays inside the store: it changes no field of
    the service, emits no effect, and leaves the armed timers, the stored
    token and the two oracles alone (it may only advance their cursors). *)
Theorem X9_store_call_frame (c : StoreCall) (w : World.t) :
  let w' := exec (step (ev_store c)) w in
  World.service w' = World.service w
  /\ trace_of w' = trace_of w
  /\ armed w' = armed w
  /\ token_of w' = token_of w
  /\ Browser.uuidSource (World.browser w') = Browser.uuidSource (World.browser w)
  /\ Browser.clockSource (World.browser w')
     = Browser.clockSource (World.browser w)
  /\ (Browser.uuidCursor (World.browser w)
      <= Browser.uuidCursor (World.browser w'))%nat
  /\ (Browser.clockCursor (World.browser w)
      <= Browser.clockCursor (World.browser w'))%nat.
Proof.
  unfold trace_of, armed, token_of.
  destruct c; symex; repeat split; try reflexivity; lia.
Qed.

Lemma step_error_status (e : Event) (w : World.t) :
  is_direct_status e = false ->
  (wsError_of (exec (step e) w) = wsError_of w
   /\ wsStatus_of (exec (step e) w) = wsStatus_of w)
  \/ wsError_of (exec (step e) w) = None
  \/ wsStatus_of (exec (step e) w) = error.
Proof.
  unfold wsError_of, wsStatus_of. intros He.
  destruct e as [c| | | | | | | | | m | | | |];
    [destruct c | .. ]; try destruct m; try discriminate He; symex; auto.
Qed.

(** X10.  Through the service an error message is only ever shown together
    with the status [error]: in every state reached from start-up by a run
    that contains no direct [setConnectionStatus] call, [wsError] is null
    unless [wsStatus] is [error]. *)
Theorem X10_error_message_needs_error_status (uuids : nat -> string)
  (clock : nat -> Z) (token : option string) (es : list Event) :
  Forall (fun e => is_direct_status e = false) es ->
  let w := run es (initial_world uuids clock token) in
  wsError_of w = None \/ wsStatus_of w = error.
Proof.
  cbn zeta. induction es as [|e es IH] using rev_ind; intros Hes.
  - left. reflexivity.
  - apply Forall_app in Hes as [Hes He]. apply Forall_inv in He.
    rewrite run_snoc.
    destruct (step_error_status e (run es (initial_world uuids clock token)) He)
      as [[E1 E2]|[E|E]].
    + rewrite E1, E2. exact (IH Hes).
    + left. exact E.
    + right. exact E.
Qed.

Lemma X10_error_message_needs_error_status_witness :
  Forall (fun e => is_direct_status e = false)
    (session_up ++ [ev_frame (msg_error fatal_error)])
  /\ wsError_of (run (session_up ++ [ev_frame (msg_error fatal_error)])
                   sample_world) = None.
Proof.
  assert (H : Forall (fun e => is_direct_status e = false)
                (session_up ++ [ev_frame (msg_error fatal_error)])).
  { repeat constructor. }
  split; [exact H|].
  destruct (X10_error_message_needs_error_status sample_uuids sample_clock
              (Some "tok") _ H) as [E|E]; [exact E | discriminate E].
Defined.

(** ** Turns *)

Lemma plus_0_cursor (n : nat) : (n + 0)%nat = n.
Proof. lia. Qed.

(** X11.  [startAssistantMessage] returns the id of the placeholder it
    appends, and starts the turn: thinking, empty accumulator, empty
    reasoning trace.  When that id is not yet in the list, finalizing with
    the returned id rewrites the placeholder only: the earlier messages are
    untouched, the placeholder carries the final content and is no longer
    streaming, and the number of streaming messages is what it was before
    the turn. *)
Theorem X11_start_then_finalize (finalContent : string)
  (metadata : FinalizeMetadata) (w : World.t) :
  Forall (fun m => id m <> uuid_at w 0) (messages_of w) ->
  let i := eval SessionStore.startAssistantMessage w in
  let w1 := exec SessionStore.startAssistantMessage w in
  let w2 :=
    exec (SessionStore.finalizeAssistantMessage i finalContent metadata) w1 in
  i = uuid_at w 0
  /\ messages_of w1 = messages_of w ++ [placeholder i (clock_at w 0)]
  /\ thinking w1 = true /\ accumulator w1 = "" /\ reasoning_trace w1 = []
  /\ messages_of w2
     = messages_of w
       ++ [finalized finalContent metadata (placeholder i (clock_at w 0))]
  /\ thinking w2 = false /\ accumulator w2 = ""
  /\ streaming_count (messages_of w2) = streaming_count (messages_of w).
Proof.
  intros Hfresh. unfold uuid_at, clock_at in *. rewrite !plus_0_cursor in *.
  cbn zeta.
  assert (E : messages_of
                (exec (SessionStore.finalizeAssistantMessage
                         (eval SessionStore.startAssistantMessage w)
                         finalContent metadata)
                   (exec SessionStore.startAssistantMessage w))
              = finalize_in (eval SessionStore.startAssistantMessage w)
                  finalContent metadata
                  (messages_of w
                   ++ [placeholder (eval SessionStore.startAssistantMessage w)
                         (Browser.clockSource (World.browser w)
                            (Browser.clockCursor (World.browser w)))]))
    by reflexivity.
  assert (F : finalize_in (eval SessionStore.startAssistantMessage w)
                finalContent metadata
                (messages_of w
                 ++ [placeholder (eval SessionStore.startAssistantMessage w)
                       (Browser.clockSource (World.browser w)
                          (Browser.clockCursor (World.browser w)))])
              = messages_of w
                ++ [finalized finalContent metadata
                      (placeholder (eval SessionStore.startAssistantMessage w)
                         (Browser.clockSource (World.browser w)
                            (Browser.clockCursor (World.browser w))))]).
  { unfold finalize_in at 1. rewrite map_app.
    fold (finalize_in (eval SessionStore.startAssistantMessage w)
            finalContent metadata (messages_of w)).
    rewrite finalize_in_unmatched by exact Hfresh.
    cbn [map]. rewrite bool_decide_eq_true_2 by reflexivity. reflexivity. }
  repeat split; try reflexivity.
  - rewrite E. exact F.
  - rewrite E, F, streaming_count_app.
    change (streaming_count [_]) with 0%nat. lia.
Qed.

Lemma X11_start_then_finalize_witness :
  Forall (fun m => id m <> uuid_at session_running 0)
    (messages_of session_running)
  /\ eval SessionStore.startAssistantMessage session_running = "uuid-0"
  /\ content <$>
       last (messages_of
               (exec (SessionStore.finalizeAssistantMessage "uuid-0" "done"
                        no_metadata)
                  (exec SessionStore.startAssistantMessage session_running)))
     = Some "done".
Proof.
  assert (H : Forall (fun m => id m <> uuid_at session_running 0)
                (messages_of session_running)) by constructor.
  destruct (X11_start_then_finalize "done" no_metadata session_running H)
    as (_ & _ & _ & _ & _ & Q & _).
  split; [exact H|]. split; [reflexivity|].
  change (content <$>
            last (messages_of
                    (exec (SessionStore.finalizeAssistantMessage
                             (eval SessionStore.startAssistantMessage
                                session_running) "done" no_metadata)
                       (exec SessionStore.startAssistantMessage
                          session_running)))
          = Some "done").
  rewrite Q. reflexivity.
Defined.

Lemma accepted_query_state (text : string) (includeReasoning : bool)
  (s : Socket) (w : World.t) :
  socket_of w = Some s -> wsStatus_of w = connected ->
  let w' := exec (step (ev_sendQuery text includeReasoning)) w in
  messages_of w'
  = messages_of w
    ++ [user_message (uuid_at w 0) (clock_at w 0) text;
        placeholder (uuid_at w 1) (clock_at w 1)]
  /\ wsStatus_of w' = connected
  /\ pending_of w' = pending_of w.
Proof.
  unfold socket_of, wsStatus_of, messages_of, pending_of, uuid_at, clock_at.
  intros Hs Hc. rewrite !plus_0_cursor, !Nat.add_1_r.
  unfold step, WebSocketService.sendQuery. unfold_store. unfold_monad.
  cbn. rewrite Hs, Hc. rewrite bool_decide_eq_true_2 by reflexivity.
  cbn. rewrite <- app_assoc. repeat split. exact Hc.
Qed.

(** X12.  A [sendQuery] that passes its guard appends exactly two messages,
    the user's text and then a streaming placeholder, with the next two
    ids of [randomUUID]; it remembers the id of the user message, hands one
    [query] frame to the socket, and leaves [canSendQuery] false, so the
    chat panel accepts no second query until the turn is over. *)
Theorem X12_accepted_query (text : string) (includeReasoning : bool)
  (s : Socket) (w : World.t) :
  socket_of w = Some s -> wsStatus_of w = connected ->
  let w' := exec (step (ev_sendQuery text includeReasoning)) w in
  messages_of w'
  = messages_of w
    ++ [user_message (uuid_at w 0) (clock_at w 0) text;
        placeholder (uuid_at w 1) (clock_at w 1)]
  /\ Fields.currentMessageId (World.service w') = Some (uuid_at w 0)
  /\ trace_of w' = trace_of w ++ [fx_next s (msg_query text includeReasoning)]
  /\ thinking w' = true
  /\ accumulator w' = ""
  /\ reasoning_trace w' = []
  /\ SessionStore.canSendQuery (World.store w') = false
  /\ wsStatus_of w' = connected
  /\ socket_of w' = Some s
  /\ pending_of w' = pending_of w.
Proof.
  unfold socket_of, wsStatus_of, messages_of, trace_of, thinking, accumulator.
  unfold reasoning_trace, pending_of, uuid_at, clock_at.
  intros Hs Hc. rewrite !plus_0_cursor, !Nat.add_1_r.
  unfold step, WebSocketService.sendQuery. unfold_store. unfold_monad.
  cbn. rewrite Hs, Hc. rewrite bool_decide_eq_true_2 by reflexivity.
  cbn. rewrite <- app_assoc.
  unfold SessionStore.canSendQuery. cbn. rewrite ?Hs, ?Hc, andb_false_r.
  repeat split; assumption.
Qed.

Lemma X12_accepted_query_witness :
  socket_of session_running = Some sample_socket
  /\ wsStatus_of session_running = connected
  /\ messages_of (exec (step (ev_sendQuery "May I extend?" true))
                    session_running)
     = [user_message "uuid-0" 1700000000000 "May I extend?";
        placeholder "uuid-1" 1700000000001].
Proof.
  assert (Hs : socket_of session_running = Some sample_socket) by reflexivity.
  assert (Hc : wsStatus_of session_running = connected) by reflexivity.
  destruct (X12_accepted_query "May I extend?" true sample_socket
              session_running Hs Hc) as (Q & _).
  split; [exact Hs|]. split; [exact Hc | exact Q].
Defined.

Lemma token_frame_signals (p : TokenPayload) (w : World.t) :
  signals_of (exec (step (ev_frame (msg_token p))) w)
  = Signals.set_streamingContent (accumulator w +:+ chunk p) (signals_of w)
  /\ World.service (exec (step (ev_frame (msg_token p))) w) = World.service w.
Proof. split; reflexivity. Qed.

(** Token frames write the accumulator and nothing else. *)
Lemma token_frames_signals (ps : list TokenPayload) (w : World.t) :
  signals_of (run (token_frames ps) w)
  = Signals.set_streamingContent
      (accumulator w +:+ concatenation (map chunk ps)) (signals_of w)
  /\ World.service (run (token_frames ps) w) = World.service w.
Proof.
  revert w. induction ps as [|p ps IH]; intros w.
  - cbn [map concatenation foldr token_frames run foldl].
    rewrite append_nil_r. split; [|reflexivity].
    unfold signals_of, accumulator. destruct (World.store w). reflexivity.
  - unfold token_frames. cbn [map]. rewrite run_cons.
    fold (token_frames ps).
    destruct (IH (exec (step (ev_frame (msg_token p))) w)) as [A B].
    destruct (token_frame_signals p w) as [C D].
    rewrite A, B, C, D, token_frame_accumulator. split; [|reflexivity].
    cbn [concatenation foldr]. fold (concatenation (map chunk ps)).
    rewrite append_assoc. reflexivity.
Qed.

Lemma signals_of_messages (w : World.t) :
  messages_of w = Signals.messages (signals_of w).
Proof. reflexivity. Qed.

(** X13.  A whole turn - an accepted query, any number of [token] frames,
    then [response_complete] - adds two messages; the last one is the
    placeholder finalized with the payload's answer and metadata; the
    accumulator is empty and the thinking flag is off again, and when no
    clarification is pending [canSendQuery] is true again. *)
Theorem X13_turn_round_trip (text : string) (includeReasoning : bool)
  (ps : list TokenPayload) (p : ResponseCompletePayload) (s : Socket)
  (w : World.t) :
  socket_of w = Some s -> wsStatus_of w = connected ->
  let w' := run (turn text includeReasoning ps p) w in
  let final :=
    finalized (final_answer p) (WebSocketService.metadata_of p) in
  messages_of w'
  = finalize_in (uuid_at w 1) (final_answer p)
      (WebSocketService.metadata_of p)
      (messages_of w
       ++ [user_message (uuid_at w 0) (clock_at w 0) text;
           placeholder (uuid_at w 1) (clock_at w 1)])
  /\ length (messages_of w') = (length (messages_of w) + 2)%nat
  /\ last (messages_of w')
     = Some (final (placeholder (uuid_at w 1) (clock_at w 1)))
  /\ accumulator w' = ""
  /\ thinking w' = false
  /\ (pending_of w = None ->
      SessionStore.canSendQuery (World.store w') = true).
Proof.
  intros Hs Hc. cbn zeta. unfold turn. rewrite run_cons, run_snoc.
  destruct (accepted_query_state text includeReasoning s w Hs Hc)
    as (M1 & S1 & P1).
  set (w1 := exec (step (ev_sendQuery text includeReasoning)) w) in *.
  destruct (token_frames_signals ps w1) as [A B].
  set (w2 := run (token_frames ps) w1) in *.
  assert (M2 : messages_of w2 = messages_of w1).
  { rewrite !signals_of_messages, A. reflexivity. }
  assert (S2 : wsStatus_of w2 = connected).
  { change (Signals.wsStatus (signals_of w2) = connected). rewrite A.
    exact S1. }
  assert (P2 : pending_of w2 = pending_of w).
  { change (Signals.pendingClarification (signals_of w2) = pending_of w).
    rewrite A. exact P1. }
  pose proof (handleMessage_response_complete p w2) as H. cbn zeta in H.
  assert (L : last (messages_of w2)
              = Some (placeholder (uuid_at w 1) (clock_at w 1))).
  { rewrite M2, M1.
    change (messages_of w ++ [?a; ?b]) with (messages_of w ++ [a] ++ [b]).
    rewrite app_assoc. apply last_snoc. }
  rewrite L in H. cbn [role placeholder] in H.
  rewrite bool_decide_eq_true_2 in H by reflexivity. rewrite H.
  assert (M3 : messages_of
                 (exec (SessionStore.finalizeAssistantMessage
                          (id (placeholder (uuid_at w 1) (clock_at w 1)))
                          (final_answer p) (WebSocketService.metadata_of p))
                    (exec (emit (fx_broadcast (msg_response_complete p))) w2))
               = finalize_in (uuid_at w 1) (final_answer p)
                   (WebSocketService.metadata_of p) (messages_of w2))
    by reflexivity.
  rewrite M3, M2, M1.
  split; [reflexivity|]. split.
  { unfold finalize_in. rewrite length_map, length_app. reflexivity. }
  split.
  { apply (finalize_in_last (uuid_at w 1)); [|reflexivity].
    change (messages_of w ++ [?a; ?b]) with (messages_of w ++ [a] ++ [b]).
    rewrite app_assoc. apply last_snoc. }
  split; [reflexivity|]. split; [reflexivity|].
  intros Hp. unfold SessionStore.canSendQuery, SessionStore.isWaitingForUser.
  cbn. fold (wsStatus_of w2). fold (pending_of w2).
  rewrite S2, P2, Hp. reflexivity.
Qed.

Lemma X13_turn_round_trip_witness :
  socket_of session_running = Some sample_socket
  /\ wsStatus_of session_running = connected
  /\ pending_of session_running = None
  /\ length (messages_of
               (run (turn "May I extend?" true sample_tokens
                       (sample_answer "Yes, up to 3 m"))
                  session_running)) = 2%nat
  /\ SessionStore.canSendQuery
       (World.store
          (run (turn "May I extend?" true sample_tokens
                  (sample_answer "Yes, up to 3 m"))
             session_running)) = true.
Proof.
  assert (Hs : socket_of session_running = Some sample_socket) by reflexivity.
  assert (Hc : wsStatus_of session_running = connected) by reflexivity.
  assert (Hp : pending_of session_running = None) by reflexivity.
  destruct (X13_turn_round_trip "May I extend?" true sample_tokens
              (sample_answer "Yes, up to 3 m") sample_socket session_running
              Hs Hc) as (_ & Q2 & _ & _ & _ & Q6).
  split; [exact Hs|]. split; [exact Hc|]. split; [exact Hp|].
  split; [exact Q2 | exact (Q6 Hp)].
Defined.

(** X14.  A [clarification_request] stores the request, switches the
    thinking flag off and blocks new queries ([canSendQuery] is false),
    without touching the messages.  A [sendClarificationResponse] that
    passes its guard then clears the pending request, starts a new streaming
    placeholder with the thinking flag on, and hands one
    [clarification_response] frame to the socket - whatever question id it
    carries: the id is not compared with the pending request. *)
Theorem X14_clarification_round (r : ClarificationRequestPayload)
  (w : World.t) :
  let w1 := exec (step (ev_frame (msg_clarification_request r))) w in
  pending_of w1
  = Some {| request := r; receivedAt := DateOfClock (clock_at w 0) |}
  /\ thinking w1 = false
  /\ SessionStore.canSendQuery (World.store w1) = false
  /\ messages_of w1 = messages_of w
  /\ (forall s questionId value text,
        socket_of w = Some s -> wsStatus_of w = connected ->
        let w2 :=
          exec (step (ev_sendClarificationResponse questionId value text))
            w1 in
        pending_of w2 = None
        /\ thinking w2 = true
        /\ messages_of w2
           = messages_of w ++ [placeholder (uuid_at w 0) (clock_at w 1)]
        /\ sent (trace_of w2)
           = sent (trace_of w)
             ++ [msg_clarification_response questionId value text]
        /\ SessionStore.canSendQuery (World.store w2) = false).
Proof.
  unfold pending_of, thinking, messages_of, socket_of, wsStatus_of, trace_of.
  unfold uuid_at, clock_at. rewrite !plus_0_cursor, !Nat.add_1_r.
  cbn zeta. split; [reflexivity|]. split; [reflexivity|].
  split.
  { unfold SessionStore.canSendQuery, SessionStore.isWaitingForUser. cbn.
    apply andb_false_r. }
  split; [reflexivity|].
  intros s q v t Hs Hc.
  unfold step, WebSocketService.handleMessage.
  unfold WebSocketService.handleClarificationRequest.
  unfold WebSocketService.sendClarificationResponse.
  unfold_store. unfold_monad. cbn. rewrite Hs, Hc.
  rewrite bool_decide_eq_true_2 by reflexivity. cbn.
  unfold sent. rewrite !omap_app. cbn. rewrite app_nil_r.
  unfold SessionStore.canSendQuery. cbn. rewrite andb_false_r.
  repeat split.
Qed.

Lemma X14_clarification_round_witness :
  socket_of turn_streaming = Some sample_socket
  /\ wsStatus_of turn_streaming = connected
  /\ thinking turn_streaming = true
  /\ thinking (exec (step (ev_frame (msg_clarification_request sample_request)))
                 turn_streaming) = false
  /\ pending_of
       (exec (step (ev_sendClarificationResponse "other-id" "detached" None))
          (exec (step (ev_frame (msg_clarification_request sample_request)))
             turn_streaming)) = None.
Proof.
  assert (Hs : socket_of turn_streaming = Some sample_socket) by reflexivity.
  assert (Hc : wsStatus_of turn_streaming = connected) by reflexivity.
  destruct (X14_clarification_round sample_request turn_streaming)
    as (_ & Q2 & _ & _ & Q5).
  destruct (Q5 sample_socket "other-id" "detached" None Hs Hc) as (R1 & _).
  split; [exact Hs|]. split; [exact Hc|]. split; [reflexivity|].
  split; [exact Q2 | exact R1].
Defined.

(** ** The message list *)

(** X15.  No event reorders the messages or drops one of them: either the
    list is emptied as a whole, or every message stays at its index with
    its id, role and timestamp. *)
Theorem X15_messages_keep_their_place (e : Event) (w : World.t) :
  messages_of (exec (step e) w) = []
  \/ (forall i m,
        messages_of w !! i = Some m ->
        exists m',
          messages_of (exec (step e) w) !! i = Some m'
          /\ id m' = id m /\ role m' = role m
          /\ timestamp m' = timestamp m).
Proof.
  destruct (step_messages e w)
    as [(extra & E & _) | [E | (x & c & md & E)]]; rewrite E.
  - right. intros i m Hi. exists m. split; [|auto].
    apply lookup_app_l_Some. exact Hi.
  - left. reflexivity.
  - right. intros i m Hi. unfold finalize_in.
    change (map ?f (messages_of w)) with (f <$> messages_of w).
    rewrite list_lookup_fmap, Hi. cbn.
    destruct (bool_decide (id m = x)); eexists; split; try reflexivity; auto.
Qed.

Lemma X15_messages_keep_their_place_witness :
  messages_of turn_streaming !! 1%nat = Some streaming_placeholder
  /\ exists m',
       messages_of
         (exec (step (ev_frame
                  (msg_response_complete (sample_answer "final text"))))
            turn_streaming) !! 1%nat = Some m'
       /\ id m' = "uuid-1" /\ role m' = assistant
       /\ content m' = "final text".
Proof.
  assert (Hi : messages_of turn_streaming !! 1%nat
               = Some streaming_placeholder) by reflexivity.
  split; [exact Hi|].
  destruct (X15_messages_keep_their_place
              (ev_frame (msg_response_complete (sample_answer "final text")))
              turn_streaming) as [H|H].
  - vm_compute in H. discriminate H.
  - destruct (H 1%nat streaming_placeholder Hi) as (m' & Hm & H1 & H2 & _).
    exists m'. split; [exact Hm|]. split; [exact H1|]. split; [exact H2|].
    vm_compute in Hm. injection Hm as <-. reflexivity.
Defined.

Lemma ids_finalize (x c : string) (md : FinalizeMetadata)
  (l : list ChatMessage) :
  map id (map (fun msg => if bool_decide (id msg = x)
                          then finalized c md msg else msg) l)
  = map id l.
Proof.
  rewrite map_map. apply map_ext. intros m.
  destruct (bool_decide (id m = x)); reflexivity.
Qed.

(** What an event does to the ids: it empties the list, or appends the
    next ids of the oracle, one per call made. *)
Lemma step_ids (e : Event) (w : World.t) :
  Browser.uuidSource (World.browser (exec (step e) w))
  = Browser.uuidSource (World.browser w)
  /\ exists k,
       Browser.uuidCursor (World.browser (exec (step e) w))
       = (Browser.uuidCursor (World.browser w) + k)%nat
       /\ (ids_of (exec (step e) w) = []
           \/ ids_of (exec (step e) w)
              = ids_of w ++ map (uuid_at w) (seq 0 k)).
Proof.
  unfold ids_of, messages_of, uuid_at.
  destruct e as [c| | | | | | | | | m | | | |];
    [destruct c | .. ]; try destruct m; symex.
  all: split; [reflexivity|].
  all: rewrite ?ids_finalize, ?map_app.
  all: first
    [ exists 0%nat; split; [lia|]; cbn; rewrite ?app_nil_r;
      first [right; reflexivity | left; reflexivity]
    | exists 1%nat; split; [lia|]; right; cbn;
      rewrite ?Nat.add_0_r; reflexivity
    | exists 2%nat; split; [lia|]; right; cbn;
      rewrite ?Nat.add_0_r, ?Nat.add_1_r, <- ?app_assoc; reflexivity ].
Qed.

Lemma map_shift_seq_from {A : Type} (f : nat -> A) (c a k : nat) :
  map (fun i => f (c + i)%nat) (seq a k) = map f (seq (c + a) k).
Proof.
  revert a. induction k as [|k IH]; intros a; [reflexivity|].
  cbn [seq map]. f_equal. rewrite IH. f_equal. f_equal. lia.
Qed.

Lemma map_shift_seq {A : Type} (f : nat -> A) (c k : nat) :
  map (fun i => f (c + i)%nat) (seq 0 k) = map f (seq c k).
Proof. rewrite map_shift_seq_from. f_equal. f_equal. lia. Qed.

Lemma unary_uuid_length (n : nat) : String.length (unary_uuid n) = n.
Proof.
  induction n as [|n IH]; [reflexivity|].
  change (S (String.length (unary_uuid n)) = S n). now rewrite IH.
Qed.

Lemma unary_uuid_inj (n m : nat) : unary_uuid n = unary_uuid m -> n = m.
Proof.
  intros H. rewrite <- (unary_uuid_length n), <- (unary_uuid_length m).
  now rewrite H.
Qed.

(** X16.  Message identifiers are never reused, as long as [randomUUID]
    never returns the same value twice: then in every state reachable from
    start-up all messages have distinct ids. *)
Theorem X16_message_ids_unique (uuids : nat -> string) (clock : nat -> Z)
  (token : option string) (es : list Event) :
  (forall n m, uuids n = uuids m -> n = m) ->
  NoDup (ids_of (run es (initial_world uuids clock token))).
Proof.
  intros Hinj.
  set (w0 := initial_world uuids clock token).
  assert (H : Browser.uuidSource (World.browser (run es w0)) = uuids
              /\ NoDup (ids_of (run es w0))
              /\ Forall (fun i =>
                   exists j,
                     (j < Browser.uuidCursor (World.browser (run es w0)))%nat
                     /\ i = uuids j) (ids_of (run es w0))).
  { induction es as [|e es (Hsrc & Hnd & Hold)] using rev_ind.
    - split; [reflexivity|]. split; constructor.
    - rewrite run_snoc.
      destruct (step_ids e (run es w0)) as (S1 & k & Hk & Hids).
      rewrite S1, Hk. split; [exact Hsrc|].
      destruct Hids as [-> | ->]; [split; constructor|].
      assert (Hnew : map (uuid_at (run es w0)) (seq 0 k)
                     = map uuids
                         (seq (Browser.uuidCursor (World.browser (run es w0)))
                            k)).
      { unfold uuid_at. rewrite Hsrc. apply map_shift_seq. }
      rewrite Hnew. split.
      + apply NoDup_app. split; [exact Hnd|]. split.
        * intros i Hi Hi'. rewrite Forall_forall in Hold.
          destruct (Hold i Hi) as (j & Hj & ->).
          apply list_elem_of_fmap in Hi' as (j' & Hj' & Hin).
          apply elem_of_seq in Hin. apply Hinj in Hj'. lia.
        * apply NoDup_fmap_2; [|apply NoDup_seq].
          intros a b. apply Hinj.
      + apply Forall_app. split.
        * eapply Forall_impl; [exact Hold|].
          intros i (j & Hj & ->). exists j. split; [lia | reflexivity].
        * apply Forall_forall. intros i Hi.
          apply list_elem_of_fmap in Hi as (j & -> & Hin).
          apply elem_of_seq in Hin. exists j. split; [lia | reflexivity]. }
  exact (proj1 (proj2 H)).
Qed.

Lemma X16_message_ids_unique_witness :
  (forall n m, unary_uuid n = unary_uuid m -> n = m)
  /\ length (ids_of (run two_turns
                       (initial_world unary_uuid sample_clock (Some "tok"))))
     = 4%nat
  /\ NoDup (ids_of (run two_turns
                      (initial_world unary_uuid sample_clock (Some "tok")))).
Proof.
  split; [exact unary_uuid_inj|]. split; [reflexivity|].
  exact (X16_message_ids_unique unary_uuid sample_clock (Some "tok") two_turns
           unary_uuid_inj).
Defined.

(** ** Sessions *)

Lemma removeSession_not_current (sessionId : string) (w : World.t) :
  Signals.currentSessionId (World.store w) <> Some sessionId ->
  let w' := exec (SessionStore.removeSession sessionId) w in
  signals_of w'
  = Signals.set_sessions
      (filter (fun s => session_id s <> sessionId)
         (Signals.sessions (World.store w)))
      (signals_of w)
  /\ World.service w' = World.service w
  /\ World.browser w' = World.browser w.
Proof.
  intros Hc. unfold signals_of, SessionStore.removeSession. unfold_store.
  unfold_monad. cbn. rewrite bool_decide_eq_false_2 by exact Hc.
  destruct w. repeat split.
Qed.

(** X17.  [removeSession] drops every listed session with that id and keeps
    the others in order.  When the id is the current session it also clears
    the current session, the chat state and the drawing state; otherwise
    only the list changes.  In both cases the connection is left as it is:
    no field of the service changes and nothing is emitted. *)
Theorem X17_removeSession (sessionId : string) (w : World.t) :
  let w' := exec (SessionStore.removeSession sessionId) w in
  Signals.sessions (World.store w')
  = filter (fun s => session_id s <> sessionId)
      (Signals.sessions (World.store w))
  /\ Forall (fun s => session_id s <> sessionId)
       (Signals.sessions (World.store w'))
  /\ World.service w' = World.service w
  /\ World.browser w' = World.browser w
  /\ (Signals.currentSessionId (World.store w) = Some sessionId ->
      Signals.currentSessionId (World.store w') = None
      /\ messages_of w' = [] /\ reasoning_trace w' = []
      /\ accumulator w' = "" /\ thinking w' = false /\ pending_of w' = None
      /\ Signals.drawingObjects (World.store w') = []
      /\ Signals.contextMetadata (World.store w') = None
      /\ Signals.contextVersion (World.store w') = 0)
  /\ (Signals.currentSessionId (World.store w) <> Some sessionId ->
      signals_of w'
      = Signals.set_sessions
          (filter (fun s => session_id s <> sessionId)
             (Signals.sessions (World.store w)))
          (signals_of w)).
Proof.
  cbn zeta.
  assert (E : forall b,
             bool_decide (Signals.currentSessionId (World.store w)
                          = Some sessionId) = b ->
             Signals.sessions
               (World.store (exec (SessionStore.removeSession sessionId) w))
             = filter (fun s => session_id s <> sessionId)
                 (Signals.sessions (World.store w))).
  { intros b Hb. unfold SessionStore.removeSession. unfold_store.
    unfold_monad. cbn. rewrite Hb. destruct b; reflexivity. }
  split; [exact (E _ eq_refl)|]. split.
  { rewrite (E _ eq_refl). apply Forall_forall. intros s Hs.
    apply list_elem_of_filter in Hs. exact (proj1 Hs). }
  split.
  { unfold SessionStore.removeSession. unfold_store. unfold_monad. cbn.
    destruct (bool_decide _); destruct w; reflexivity. }
  split.
  { unfold SessionStore.removeSession. unfold_store. unfold_monad. cbn.
    destruct (bool_decide _); destruct w; reflexivity. }
  split.
  - intros Hc. unfold messages_of, reasoning_trace, accumulator, thinking.
    unfold pending_of, SessionStore.removeSession. unfold_store.
    unfold_monad. cbn. rewrite bool_decide_eq_true_2 by exact Hc.
    cbn. repeat split.
  - intros Hc. unfold signals_of, SessionStore.removeSession. unfold_store.
    unfold_monad. cbn. rewrite bool_decide_eq_false_2 by exact Hc.
    reflexivity.
Qed.

Lemma X17_removeSession_witness :
  Signals.currentSessionId (World.store two_sessions) = Some "s2"
  /\ length (messages_of two_sessions) = 2%nat
  /\ messages_of (exec (SessionStore.removeSession "s2") two_sessions) = []
  /\ socket_of (exec (SessionStore.removeSession "s2") two_sessions)
     = Some sample_socket.
Proof.
  assert (H : Signals.currentSessionId (World.store two_sessions)
              = Some "s2") by reflexivity.
  destruct (X17_removeSession "s2" two_sessions) as (_ & _ & _ & _ & P & _).
  destruct (P H) as (_ & Q & _).
  split; [exact H|]. split; [reflexivity|]. split; [exact Q | reflexivity].
Defined.

Lemma filter_all_kept (sessionId : string) (l : list SessionListItem) :
  Forall (fun s => session_id s <> sessionId) l ->
  filter (fun s => session_id s <> sessionId) l = l.
Proof.
  induction 1 as [|s l Hs _ IH]; [reflexivity|].
  rewrite filter_cons_True by exact Hs. now rewrite IH.
Qed.

(** X18.  Creating a session and deleting it again restores the store, when
    no listed session already has the new id and it is not the current
    session: the created item is put in front of the list and the deletion
    takes exactly that item out.  (A listed session with the same id would
    be deleted with it.) *)
Theorem X18_create_then_delete (response : SessionCreateResponse)
  (w : World.t) :
  Forall (fun s => session_id s <> scr_session_id response)
    (Signals.sessions (World.store w)) ->
  Signals.currentSessionId (World.store w) <> Some (scr_session_id response) ->
  let w1 := exec (SessionService.createSession_tap response) w in
  let w2 :=
    exec (SessionService.deleteSession_tap (scr_session_id response)) w1 in
  head (Signals.sessions (World.store w1))
  = Some {| session_id := scr_session_id response;
            created_at := scr_created_at response;
            updated_at := None; has_context := false; object_count := 0 |}
  /\ tail (Signals.sessions (World.store w1))
     = Signals.sessions (World.store w)
  /\ signals_of w2 = signals_of w
  /\ World.service w2 = World.service w
  /\ World.browser w2 = World.browser w.
Proof.
  intros Hfresh Hcur. cbn zeta.
  split; [reflexivity|]. split; [reflexivity|].
  unfold SessionService.deleteSession_tap.
  destruct (removeSession_not_current (scr_session_id response)
              (exec (SessionService.createSession_tap response) w) Hcur)
    as (A & B & C).
  rewrite A, B, C. split; [|split; reflexivity].
  change (Signals.sessions
            (World.store (exec (SessionService.createSession_tap response) w)))
    with ({| session_id := scr_session_id response;
             created_at := scr_created_at response;
             updated_at := None; has_context := false; object_count := 0 |}
          :: Signals.sessions (World.store w)).
  rewrite filter_cons_False by (cbn; intros H; now apply H).
  rewrite filter_all_kept by exact Hfresh.
  unfold signals_of. destruct w as [[] sv br]. reflexivity.
Qed.

Lemma X18_create_then_delete_witness :
  Forall (fun s => session_id s <> "s3")
    (Signals.sessions (World.store two_sessions))
  /\ Signals.currentSessionId (World.store two_sessions) <> Some "s3"
  /\ Signals.sessions
       (World.store
          (exec (SessionService.deleteSession_tap "s3")
             (exec (SessionService.createSession_tap
                      {| scr_session_id := "s3";
                         scr_created_at := "2025-02-02T00:00:00Z" |})
                two_sessions)))
     = [sample_item "s1"; sample_item "s2"].
Proof.
  assert (H1 : Forall (fun s => session_id s <> "s3")
                 (Signals.sessions (World.store two_sessions))).
  { vm_compute. repeat constructor; discriminate. }
  assert (H2 : Signals.currentSessionId (World.store two_sessions)
               <> Some "s3") by discriminate.
  destruct (X18_create_then_delete
              {| scr_session_id := "s3";
                 scr_created_at := "2025-02-02T00:00:00Z" |}
              two_sessions H1 H2) as (_ & _ & Q & _).
  split; [exact H1|]. split; [exact H2|].
  change (Signals.sessions
            (signals_of
               (exec (SessionService.deleteSession_tap
                        (scr_session_id
                           {| scr_session_id := "s3";
                              scr_created_at := "2025-02-02T00:00:00Z" |}))
                  (exec (SessionService.createSession_tap
                           {| scr_session_id := "s3";
                              scr_created_at := "2025-02-02T00:00:00Z" |})
                     two_sessions)))
          = [sample_item "s1"; sample_item "s2"]).
  rewrite Q. reflexivity.
Defined.

(** X19.  [clearAuth] takes the store back to its start-up value except for
    the connection status and error, which it does not touch; it does not
    disconnect either: the service and the browser are as before. *)
Theorem X19_clearAuth_resets (w : World.t) :
  let w' := exec SessionStore.clearAuth w in
  signals_of w'
  = Signals.set_wsError (wsError_of w)
      (Signals.set_wsStatus (wsStatus_of w) initial_signals)
  /\ World.service w' = World.service w
  /\ World.browser w' = World.browser w.
Proof.
  unfold signals_of, wsError_of, wsStatus_of. cbn zeta.
  unfold SessionStore.clearAuth. unfold_store. unfold_monad. cbn.
  destruct w as [[] sv br]. repeat split.
Qed.

(** ** The chat panel *)

Lemma lastMessageFollowups_last (s : Signals.t) :
  ChatPanelComponent.lastMessageFollowups s
  = match last (Signals.messages s) with
    | Some m =>
        if bool_decide (role m = assistant)
        then match suggestedFollowups m with Some l => l | None => [] end
        else []
    | None => []
    end.
Proof.
  unfold ChatPanelComponent.lastMessageFollowups. cbn zeta.
  rewrite at_index_last.
  destruct (Signals.messages s) as [|m l] eqn:E; [reflexivity|].
  destruct (Z.eqb_spec (Z.of_nat (length (m :: l))) 0) as [H|_].
  { cbn [length] in H. lia. }
  destruct (last (m :: l)) as [x|]; [|reflexivity].
  destruct (role x); reflexivity.
Qed.

(** X20.  The panel's own [canSend] is the store's [canSendQuery].  Its
    follow-up suggestions are those of the payload once [response_complete]
    has finalized an assistant message, and there are none while the list
    is empty, while the last message is the user's, or right after a query
    was sent (the placeholder carries none). *)
Theorem X20_panel_follows_store (w : World.t) :
  (forall s, ChatPanelComponent.canSend s = SessionStore.canSendQuery s)
  /\ (forall p m,
        last (messages_of w) = Some m -> role m = assistant ->
        ChatPanelComponent.lastMessageFollowups
          (World.store (exec (step (ev_frame (msg_response_complete p))) w))
        = suggested_followups p)
  /\ (forall s text,
        socket_of w = Some s -> wsStatus_of w = connected ->
        ChatPanelComponent.lastMessageFollowups
          (World.store (exec (ChatPanelComponent.sendMessage text) w)) = [])
  /\ (forall m,
        last (messages_of w) = Some m -> role m = user ->
        ChatPanelComponent.lastMessageFollowups (World.store w) = [])
  /\ (messages_of w = [] ->
      ChatPanelComponent.lastMessageFollowups (World.store w) = []).
Proof.
  split; [reflexivity|]. split; [|split; [|split]].
  - intros p m Hl Hr. rewrite lastMessageFollowups_last.
    pose proof (handleMessage_response_complete p w) as H. cbn zeta in H.
    rewrite Hl, bool_decide_eq_true_2 in H by exact Hr. rewrite H.
    change (Signals.messages (World.store ?x)) with (messages_of x).
    assert (M : messages_of
                  (exec (SessionStore.finalizeAssistantMessage (id m)
                           (final_answer p) (WebSocketService.metadata_of p))
                     (exec (emit (fx_broadcast (msg_response_complete p))) w))
                = finalize_in (id m) (final_answer p)
                    (WebSocketService.metadata_of p) (messages_of w))
      by reflexivity.
    rewrite M, (finalize_in_last (id m) _ _ _ m Hl eq_refl).
    cbn. rewrite Hr. reflexivity.
  - intros s text Hs Hc. rewrite lastMessageFollowups_last.
    destruct (accepted_query_state text true s w Hs Hc) as (M & _).
    unfold ChatPanelComponent.sendMessage.
    change (Signals.messages
              (World.store (exec (WebSocketService.sendQuery text true) w)))
      with (messages_of (exec (step (ev_sendQuery text true)) w)).
    rewrite M.
    change (messages_of w ++ [?a; ?b]) with (messages_of w ++ [a] ++ [b]).
    rewrite app_assoc, last_snoc. reflexivity.
  - intros m Hl Hr. rewrite lastMessageFollowups_last.
    change (Signals.messages (World.store w)) with (messages_of w).
    rewrite Hl, Hr. reflexivity.
  - intros He. rewrite lastMessageFollowups_last.
    change (Signals.messages (World.store w)) with (messages_of w).
    rewrite He. reflexivity.
Qed.

Lemma X20_panel_follows_store_witness :
  last (messages_of turn_streaming) = Some streaming_placeholder
  /\ role streaming_placeholder = assistant
  /\ ChatPanelComponent.lastMessageFollowups (World.store turn_streaming) = []
  /\ ChatPanelComponent.lastMessageFollowups
       (World.store
          (exec (step (ev_frame (msg_response_complete sample_followups)))
             turn_streaming))
     = ["How far may it extend?"; "Do I need prior approval?"].
Proof.
  assert (Hl : last (messages_of turn_streaming) = Some streaming_placeholder)
    by reflexivity.
  assert (Hr : role streaming_placeholder = assistant) by reflexivity.
  destruct (X20_panel_follows_store turn_streaming) as (_ & P & _).
  split; [exact Hl|]. split; [exact Hr|]. split; [reflexivity|].
  exact (P sample_followups streaming_placeholder Hl Hr).
Defined.

(** ** The shell: switching sessions *)



(** ** Token expiry *)

(** X22.  [isTokenExpired] treats a payload without [exp], or with
    [exp = 0], as expired, without reading the clock.  Otherwise it reads
    the clock once; for an [exp] whose date is valid the token counts as
    expired from 60 seconds before [exp] on, and an [exp] outside the range
    of [Date] is never reported as expired.  A token reported as expired
    is still reported so at any later clock reading. *)
Theorem X22_isTokenExpired (payload : JwtPayload) (w : World.t) :
  let expired := eval (AuthService.isTokenExpired payload) w in
  (jwt_exp payload = None \/ jwt_exp payload = Some 0 ->
   expired = true /\ exec (AuthService.isTokenExpired payload) w = w)
  /\ (forall exp,
        jwt_exp payload = Some exp -> exp <> 0 ->
        Z.abs (exp * 1000) <= 8640000000000000 ->
        (expired = true <-> exp * 1000 - clock_at w 0 < 60000))
  /\ (forall exp,
        jwt_exp payload = Some exp ->
        8640000000000000 < Z.abs (exp * 1000) ->
        expired = false)
  /\ (forall w',
        clock_at w 0 <= clock_at w' 0 ->
        expired = true ->
        eval (AuthService.isTokenExpired payload) w' = true).
Proof.
  unfold clock_at. rewrite !plus_0_cursor. cbn zeta.
  unfold AuthService.isTokenExpired, timeClip, nowMillis, eval, exec.
  unfold browser_get, browser_set, bind, ret.
  split; [|split; [|split]].
  - intros [H|H]; rewrite H; cbn; auto.
  - intros exp He Hz Hr. rewrite He.
    destruct (Z.eqb_spec exp 0) as [|_]; [contradiction|].
    destruct (Z.leb_spec (Z.abs (exp * 1000)) 8640000000000000); [|lia].
    cbn. apply Z.ltb_lt.
  - intros exp He Hr. rewrite He.
    destruct (Z.eqb_spec exp 0) as [->|_]; [cbn in Hr; lia|].
    destruct (Z.leb_spec (Z.abs (exp * 1000)) 8640000000000000); [lia|].
    reflexivity.
  - intros w' Hle. rewrite !plus_0_cursor in Hle.
    destruct (jwt_exp payload) as [exp|]; [|reflexivity].
    destruct (Z.eqb_spec exp 0) as [|_]; [reflexivity|].
    destruct (Z.leb_spec (Z.abs (exp * 1000)) 8640000000000000);
      cbn; [|discriminate].
    rewrite !Z.ltb_lt. lia.
Qed.

Lemma X22_isTokenExpired_witness :
  jwt_exp sample_jwt = Some 1700000050
  /\ 1700000050 <> 0
  /\ Z.abs (1700000050 * 1000) <= 8640000000000000
  /\ 1700000050 * 1000 - clock_at sample_world 0 < 60000
  /\ eval (AuthService.isTokenExpired sample_jwt) sample_world = true.
Proof.
  assert (H1 : jwt_exp sample_jwt = Some 1700000050) by reflexivity.
  assert (H2 : 1700000050 <> 0) by discriminate.
  assert (H3 : Z.abs (1700000050 * 1000) <= 8640000000000000)
    by (vm_compute; discriminate).
  assert (H4 : 1700000050 * 1000 - clock_at sample_world 0 < 60000)
    by reflexivity.
  destruct (X22_isTokenExpired sample_jwt sample_world) as (_ & P & _).
  split; [exact H1|]. split; [exact H2|]. split; [exact H3|].
  split; [exact H4|]. exact (proj2 (P 1700000050 H1 H2 H3) H4).
Defined.

(** ** The progress counter of the reasoning panel *)

Lemma completedSteps_app (l1 l2 : list ReasoningStep) :
  ReasoningStepsComponent.completedSteps (l1 ++ l2)
  = ReasoningStepsComponent.completedSteps l1
    + ReasoningStepsComponent.completedSteps l2.
Proof.
  unfold ReasoningStepsComponent.completedSteps.
  rewrite filter_app, length_app. lia.
Qed.

Lemma completedSteps_cons (s : ReasoningStep) (l : list ReasoningStep) :
  ReasoningStepsComponent.completedSteps (s :: l)
  = as_completed s + ReasoningStepsComponent.completedSteps l.
Proof.
  unfold ReasoningStepsComponent.completedSteps, as_completed.
  rewrite filter_cons.
  destruct (decide (status s = completed)) as [H|H].
  - rewrite bool_decide_eq_true_2 by exact H. cbn [length]. lia.
  - rewrite bool_decide_eq_false_2 by exact H. lia.
Qed.

Lemma completedSteps_insert (t : list ReasoningStep) (i : nat)
  (old s : ReasoningStep) :
  t !! i = Some old ->
  ReasoningStepsComponent.completedSteps (<[i := s]> t) + as_completed old
  = ReasoningStepsComponent.completedSteps t + as_completed s.
Proof.
  intros Hi.
  rewrite <- (take_drop_middle t i old Hi) at 2.
  rewrite insert_take_drop by (eapply lookup_lt_Some; exact Hi).
  rewrite !completedSteps_app, !completedSteps_cons. lia.
Qed.

(** X23.  The panel's count of completed steps follows the upserts: it
    never exceeds the number of steps; a step with a new index adds 1 to it
    exactly when it arrives completed; and in a trace with one entry per
    index, a re-delivery changes the count by the difference between the
    new and the replaced entry (so [processing] then [completed] for the
    same index adds 1 and leaves the number of steps unchanged). *)
Theorem X23_completed_steps (step : ReasoningStep)
  (current : list ReasoningStep) :
  let count := ReasoningStepsComponent.completedSteps in
  0 <= count current <= Z.of_nat (length current)
  /\ (stepIndex step ∉ indices current ->
      count (SessionStore.upsertStep step current)
      = count current + as_completed step)
  /\ (forall i old,
        NoDup (indices current) ->
        current !! i = Some old -> stepIndex old = stepIndex step ->
        count (SessionStore.upsertStep step current) + as_completed old
        = count current + as_completed step
        /\ length (SessionStore.upsertStep step current) = length current).
Proof.
  cbn zeta. split; [|split].
  - unfold ReasoningStepsComponent.completedSteps.
    pose proof (length_filter (fun s => status s = completed) current). lia.
  - intros Hnew. rewrite (upsertStep_new step current Hnew).
    rewrite completedSteps_app, completedSteps_cons.
    change (ReasoningStepsComponent.completedSteps []) with 0. lia.
  - intros i old Hnd Hi Hk.
    assert (Hin : stepIndex step ∈ indices current).
    { unfold indices. apply list_elem_of_fmap. exists old. split.
      - symmetry. exact Hk.
      - apply list_elem_of_lookup. exists i. exact Hi. }
    destruct (upsertStep_known step current Hin)
      as (j & old' & Hj & Hk' & _ & E).
    assert (j = i) as ->.
    { apply (NoDup_lookup (indices current) j i (stepIndex step) Hnd).
      - unfold indices.
        change (map stepIndex current) with (stepIndex <$> current).
        rewrite list_lookup_fmap, Hj. cbn. now rewrite Hk'.
      - unfold indices.
        change (map stepIndex current) with (stepIndex <$> current).
        rewrite list_lookup_fmap, Hi. cbn. now rewrite Hk. }
    rewrite E. split.
    + apply completedSteps_insert. exact Hi.
    + apply length_insert.
Qed.

Lemma X23_completed_steps_witness :
  NoDup (indices (delivered (take 3 sample_deliveries) []))
  /\ delivered (take 3 sample_deliveries) [] !! 1%nat
     = Some (step_of (sample_step 2 processing))
  /\ ReasoningStepsComponent.completedSteps
       (delivered (take 3 sample_deliveries) []) = 0
  /\ ReasoningStepsComponent.completedSteps
       (SessionStore.upsertStep (step_of (sample_step 2 completed))
          (delivered (take 3 sample_deliveries) [])) = 1.
Proof.
  assert (Hnd : NoDup (indices (delivered (take 3 sample_deliveries) []))).
  { apply delivered_NoDup. constructor. }
  assert (Hi : delivered (take 3 sample_deliveries) [] !! 1%nat
               = Some (step_of (sample_step 2 processing))) by reflexivity.
  destruct (X23_completed_steps (step_of (sample_step 2 completed))
              (delivered (take 3 sample_deliveries) [])) as (_ & _ & P).
  destruct (P 1%nat (step_of (sample_step 2 processing)) Hnd Hi eq_refl)
    as (Q & _).
  split; [exact Hnd|]. split; [exact Hi|]. split; [reflexivity|].
  change (as_completed (step_of (sample_step 2 processing))) with 0 in Q.
  change (as_completed (step_of (sample_step 2 completed))) with 1 in Q.
  change (ReasoningStepsComponent.completedSteps
            (delivered (take 3 sample_deliveries) [])) with 0 in Q.
  rewrite Z.add_0_r in Q. exact Q.
Defined.

(** ** Bringing a session up *)

(** X24.  From any state, [connect] followed by the socket opening and the
    [connected] envelope leaves the manager connected to that session:
    status [connected] with no error, the session bound, one new socket
    for it, the attempt counter at 0, a fresh keepalive interval, the
    context version mirrored, and exactly one history request, for that
    session.  The next keepalive tick then sends one [ping] and changes
    no signal and no field. *)
Theorem X24_handshake (sessionId token : string) (p : ConnectedPayload)
  (w : World.t) :
  sessionId <> "" ->
  let w' := run (handshake sessionId token p) w in
  wsStatus_of w' = connected
  /\ wsError_of w' = None
  /\ bound_session w' = Some sessionId
  /\ socket_of w'
     = Some {| sock_sessionId := sessionId; sock_token := token |}
  /\ attempts w' = 0
  /\ pingInterval_of w' = Some (Browser.nextHandle (World.browser w))
  /\ Signals.contextVersion (World.store w') = cp_context_version p
  /\ opened (trace_of w') = opened (trace_of w) ++ [(sessionId, token)]
  /\ history_requests (trace_of w')
     = history_requests (trace_of w) ++ [sessionId]
  /\ (let w'' := exec (step ev_ping_tick) w' in
      sent (trace_of w'') = sent (trace_of w') ++ [msg_ping]
      /\ World.store w'' = World.store w'
      /\ World.service w'' = World.service w').
Proof.
  unfold wsStatus_of, wsError_of, bound_session, socket_of, attempts.
  unfold pingInterval_of, trace_of, handshake, run.
  intros Hsid. apply String.eqb_neq in Hsid. cbn [foldl].
  symex_with ltac:(rewrite ?Hsid).
  all: unfold opened, history_requests, sent; rewrite ?omap_app; cbn.
  all: rewrite ?app_nil_r; repeat split; reflexivity.
Qed.

Lemma X24_handshake_witness :
  "s1" <> ""
  /\ wsStatus_of (run (handshake "s1" "tok" sample_connected) sample_world)
     = connected
  /\ history_requests
       (trace_of (run (handshake "s1" "tok" sample_connected) sample_world))
     = ["s1"].
Proof.
  assert (H : "s1" <> "") by discriminate.
  destruct (X24_handshake "s1" "tok" sample_connected sample_world H)
    as (Q1 & _ & _ & _ & _ & _ & _ & _ & Q9 & _).
  split; [exact H|]. split; [exact Q1 | exact Q9].
Defined.

(** ** Who cancels a reconnection timer *)

Lemma delete_beyond {A : Type} (l : list A) (i : nat) :
  l !! i = None -> delete i l = l.
Proof.
  revert i. induction l as [|x l IH]; intros i Hi; [destruct i; reflexivity|].
  destruct i as [|i]; [discriminate Hi|].
  cbn in *. f_equal. apply IH. exact Hi.
Qed.

(** X25.  An armed reconnection timer goes away only by firing or by
    [ngOnDestroy]: every other event - [disconnect] and [connect] included
    - keeps all armed timers in order and adds at most one at the end. *)
Theorem X25_armed_timers_persist (e : Event) (w : World.t) :
  match e with
  | ev_ngOnDestroy => armed (exec (step e) w) = []
  | ev_retry_timer i =>
      armed (exec (step e) w) = delete i (armed w)
  | _ =>
      exists extra,
        armed (exec (step e) w) = armed w ++ extra
        /\ (length extra <= 1)%nat
  end.
Proof.
  unfold armed.
  destruct e as [c| | | | | | | | | m | | | |];
    [destruct c | .. ]; try destruct m; symex.
  all: try reflexivity.
  all: try (exists []; rewrite app_nil_r; split; [reflexivity | cbn; lia]).
  all: try (eexists; split; [reflexivity | cbn; lia]).
  all: symmetry; apply delete_beyond; assumption.
Qed.
